(** * Opportunity extraction and scoring core: a shallow embedding

    This development embeds the two analyzers of the repository,
    [opportunity_analyzer.py] (module [Basic]) and
    [opportunity_analyzer_improved.py] (module [Improved]), together with
    the constants of [config.py] they read, and states the properties of
    the batcher, the response parsers, the deduplicator and the
    scorer/ranker against them.

    Modelling conventions.
    - A Python value is a [pyval]; a dict is a [gmap string pyval].  The
      universe holds [None], integers, floats, strings, lists and dicts,
      which is what [json.loads] produces apart from booleans.
    - A float is modelled by the rational number it approximates ([Q]).
      [round(x, 1)] is a parameter of type [round_to_tenth]: any function
      that returns a multiple of one tenth at distance at most one
      twentieth of its argument.  Which neighbour a tie goes to depends on
      the binary representation of the sum and is left open.
    - A Python exception is a value [Raise e] of the type [result].
    - Text is a [string] of 8-bit characters; case folding and white space
      follow Python on the ASCII range, other characters are left alone.
    - The embedding is exact on ASCII text, on ints that convert to a
      float and on finite floats.  Python folds and trims more characters
      outside ASCII, raises [OverflowError] when an int beyond the float
      range meets a float, and orders nothing against a NaN.  A statement
      that depends on this carries the restriction as a hypothesis:
      [ascii_text] and [ascii_titled] for text, [modest_engagement] and
      [score_in_range] for numbers, [plain_reply] for the replies of the
      service.
    - The text-generation service, the regular expression search for the
      JSON array, the JSON decoder, [str()] and the clock are parameters. *)

From Stdlib Require Import ZArith QArith Qround Qabs Lia Lqa String Ascii List.
From Stdlib Require Import Permutation Sorted.
From stdpp Require Import base gmap strings list.
Import ListNotations.

Local Open Scope string_scope.
Local Open Scope list_scope.

(** ** Python values and exceptions *)

#[warnings="-register-all"]
Inductive pyval : Type :=
| PyNone
| PyInt (n : Z)
| PyFloat (q : Q)
| PyStr (s : string)
| PyList (l : list pyval)
| PyDict (d : gmap string pyval).

(** A dict with string keys, as every signal and opportunity is. *)
Abbreviation pydict := (gmap string pyval).

Inductive exn : Type :=
| KeyError
| TypeError
| AttributeError
| ValueError
| IndexError.

Inductive result (A : Type) : Type :=
| Ok (a : A)
| Raise (e : exn).

Arguments Ok {A} a.
Arguments Raise {A} e.

#[global] Instance result_ret : MRet result := fun A a => Ok a.

#[global] Instance result_bind : MBind result := fun A B f m =>
  match m with
  | Ok a => f a
  | Raise e => Raise e
  end.

(** [try: ... except Exception: return d] *)
Definition try_except {A : Type} (m : result A) (d : A) : A :=
  match m with
  | Ok a => a
  | Raise _ => d
  end.

Definition is_Ok {A : Type} (m : result A) : bool :=
  match m with
  | Ok _ => true
  | Raise _ => false
  end.

(** [d.get(k, default)] *)
Definition dict_get (d : pydict) (k : string) (default : pyval) : pyval :=
  match d !! k with
  | Some v => v
  | None => default
  end.

(** [d[k]] *)
Definition dict_item (d : pydict) (k : string) : result pyval :=
  match d !! k with
  | Some v => Ok v
  | None => Raise KeyError
  end.

(** [d.setdefault(k, v)] *)
Definition setdefault (k : string) (v : pyval) (d : pydict) : pydict :=
  match d !! k with
  | Some _ => d
  | None => <[k := v]> d
  end.

(** [k in d] *)
Definition has_key (d : pydict) (k : string) : bool :=
  match d !! k with
  | Some _ => true
  | None => false
  end.

(** The numeric value of an int or a float; arithmetic on anything else is
    a [TypeError]. *)
Definition as_number (v : pyval) : result Q :=
  match v with
  | PyInt n => Ok (inject_Z n)
  | PyFloat q => Ok q
  | _ => Raise TypeError
  end.

(** [v.lower()] exists on strings only. *)
Definition as_str_method (v : pyval) : result string :=
  match v with
  | PyStr s => Ok s
  | _ => Raise AttributeError
  end.

(** [v.get] exists on dicts only. *)
Definition as_dict_method (v : pyval) : result pydict :=
  match v with
  | PyDict d => Ok d
  | _ => Raise AttributeError
  end.

(** Truth value of an object: [if not v]. *)
Definition truthy (v : pyval) : bool :=
  match v with
  | PyNone => false
  | PyInt n => negb (n =? 0)%Z
  | PyFloat q => negb (Qeq_bool q 0)
  | PyStr s => negb (String.eqb s "")
  | PyList l => match l with [] => false | _ => true end
  | PyDict d => negb (bool_decide (d = ∅))
  end.

Definition chars_of (s : string) : list pyval :=
  map (fun c => PyStr (String c EmptyString)) (list_ascii_of_string s).

(** [for x in v]: lists yield their items, strings their characters,
    dicts their keys. *)
Definition py_iter (v : pyval) : result (list pyval) :=
  match v with
  | PyList l => Ok l
  | PyStr s => Ok (chars_of s)
  | PyDict d => Ok (map (fun kv => PyStr kv.1) (map_to_list d))
  | _ => Raise TypeError
  end.

(** [len(v)] *)
Definition py_len (v : pyval) : result nat :=
  match v with
  | PyList l => Ok (length l)
  | PyStr s => Ok (String.length s)
  | PyDict d => Ok (size d)
  | _ => Raise TypeError
  end.

(** [l[i]] on a list, with Python's negative indices. *)
Definition list_item {A : Type} (l : list A) (i : Z) : result A :=
  let j := if (i <? 0)%Z then (i + Z.of_nat (length l))%Z else i in
  if (j <? 0)%Z then Raise IndexError
  else match l !! Z.to_nat j with
       | Some x => Ok x
       | None => Raise IndexError
       end.

(** [int(x)] on a float truncates towards zero. *)
Definition py_int (x : Q) : Z :=
  if Qle_bool 0 x then Qfloor x else Qceiling x.

(** [min(a, b)]: the first argument unless the second is smaller. *)
Definition py_min (a b : Q) : Q :=
  if Qle_bool a b then a else b.

(** [round(x, 1)] up to the direction of ties. *)
Record round_to_tenth : Type := {
  round1 :> Q -> Q;
  round1_tenth : forall x, exists k : Z, round1 x = (k # 10)%Q;
  round1_near : forall x, (Qabs (round1 x - x) <= 1 # 20)%Q
}.

(** ** Text *)

Definition nl_char : ascii := "010"%char.
Definition quote_char : ascii := "034"%char.
Definition nl : string := String nl_char EmptyString.

Definition between (lo hi : nat) (c : ascii) : bool :=
  let n := nat_of_ascii c in (lo <=? n)%nat && (n <=? hi)%nat.

Definition is_upper : ascii -> bool := between 65 90.
Definition is_digit : ascii -> bool := between 48 57.

(** [str.isspace] on the ASCII range. *)
Definition is_space (c : ascii) : bool :=
  between 9 13 c || between 28 32 c.

Definition lower_char (c : ascii) : ascii :=
  if is_upper c then ascii_of_nat (nat_of_ascii c + 32) else c.

(** [s.lower()] *)
Fixpoint lower (s : string) : string :=
  match s with
  | EmptyString => EmptyString
  | String c s' => String (lower_char c) (lower s')
  end.

Fixpoint drop_while (p : ascii -> bool) (s : string) : string :=
  match s with
  | EmptyString => EmptyString
  | String c s' => if p c then drop_while p s' else s
  end.

Fixpoint take_while (p : ascii -> bool) (s : string) : string :=
  match s with
  | EmptyString => EmptyString
  | String c s' => if p c then String c (take_while p s') else EmptyString
  end.

Definition srev (s : string) : string :=
  string_of_list_ascii (rev (list_ascii_of_string s)).

Definition strip_with (p : ascii -> bool) (s : string) : string :=
  srev (drop_while p (srev (drop_while p s))).

(** [s.strip()] *)
Definition strip : string -> string := strip_with is_space.

(** [s.strip(q)] for the double-quote character [q]. *)
Definition strip_quotes : string -> string := strip_with (Ascii.eqb quote_char).

(** [s[:n]] *)
Fixpoint prefix_of (n : nat) (s : string) : string :=
  match n, s with
  | S n', String c s' => String c (prefix_of n' s')
  | _, _ => EmptyString
  end.

(** [needle in hay] *)
Fixpoint contains (needle hay : string) : bool :=
  String.prefix needle hay ||
  match hay with
  | EmptyString => false
  | String _ hay' => contains needle hay'
  end.

(** [any(term in text for term in terms)] *)
Definition any_in (terms : list string) (text : string) : bool :=
  existsb (fun term => contains term text) terms.

(** [s.split(sep)] for a one-character separator. *)
Fixpoint split (sep : ascii) (s : string) : list string :=
  match s with
  | EmptyString => [EmptyString]
  | String c s' =>
      if Ascii.eqb c sep then EmptyString :: split sep s'
      else match split sep s' with
           | w :: ws => String c w :: ws
           | [] => [String c EmptyString]
           end
  end.

(** [s.split(sep, 1)[1]], defined when [sep] occurs in [s]. *)
Fixpoint after_first (sep : ascii) (s : string) : string :=
  match s with
  | EmptyString => EmptyString
  | String c s' => if Ascii.eqb c sep then s' else after_first sep s'
  end.

Definition has_char (c : ascii) (s : string) : bool :=
  contains (String c EmptyString) s.

Definition digit_value (c : ascii) : Z := Z.of_nat (nat_of_ascii c - 48).

Fixpoint int_of_digits (acc : Z) (s : string) : Z :=
  match s with
  | EmptyString => acc
  | String c s' => int_of_digits (10 * acc + digit_value c)%Z s'
  end.

(** [m = re.search(r'(\d+)', s)] followed by [int(m.group(1))]: the first
    maximal run of digits, if there is one. *)
Definition search_int (s : string) : option Z :=
  match take_while is_digit (drop_while (fun c => negb (is_digit c)) s) with
  | EmptyString => None
  | ds => Some (int_of_digits 0 ds)
  end.

(** [sep.join(parts)] *)
Fixpoint join (sep : string) (parts : list string) : string :=
  match parts with
  | [] => ""
  | [p] => p
  | p :: ps => p +:+ sep +:+ join sep ps
  end.

(** ** The batcher *)

(** The indices visited by [for i in range(i0, n, step)], for a positive
    [step]; [fuel] bounds the number of iterations. *)
Fixpoint range_from (fuel i0 n step : nat) : list nat :=
  match fuel with
  | O => []
  | S fuel' =>
      if (i0 <? n)%nat then i0 :: range_from fuel' (i0 + step) n step
      else []
  end.

(** [range(0, n, step)]; a zero step is a [ValueError]. *)
Definition py_range (n step : nat) : result (list nat) :=
  match step with
  | O => Raise ValueError
  | S _ => Ok (range_from n 0 n step)
  end.

(** [l[i:j]] for [0 <= i <= j]. *)
Definition slice {A : Type} (l : list A) (i j : nat) : list A :=
  take (j - i) (drop i l).

(** [for i in range(0, len(signals), batch_size): signals[i:i+batch_size]],
    the loop of [_batch_signals] and of the improved [analyze_signals]. *)
Definition batches_of {A : Type} (signals : list A) (batch_size : nat)
  : result (list (list A)) :=
  idxs ← py_range (length signals) batch_size;
  Ok (map (fun i => slice signals i (i + batch_size)) idxs).

(** [for x in l: ...] over a body that may raise. *)
Fixpoint for_each {A B : Type} (f : A -> result B) (l : list A)
  : result (list B) :=
  match l with
  | [] => Ok []
  | x :: l' => y ← f x; ys ← for_each f l'; Ok (y :: ys)
  end.

(** [for x in l: ...] over a body that updates a state and may raise. *)
Fixpoint fold_loop {A S : Type} (f : S -> A -> result S) (l : list A) (s : S)
  : result S :=
  match l with
  | [] => Ok s
  | x :: l' => s' ← f s x; fold_loop f l' s'
  end.

(** ** config.py *)

Module config.

(** Minimum score to include in brief. *)
Definition CHARTER_FIT_THRESHOLD : Z := 50.

Record criteria : Type := {
  charter_fit : Q;
  customer_evidence : Q;
  market_size : Q;
  feasibility : Q;
  competitive_advantage : Q
}.

(** The [weight] entries of [SCORING_CRITERIA]. *)
Definition SCORING_CRITERIA : criteria := {|
  charter_fit := 0.30;
  customer_evidence := 0.25;
  market_size := 0.20;
  feasibility := 0.15;
  competitive_advantage := 0.10
|}.

End config.

(** ** Code the two analyzers share word for word *)

(** [if 'engagement' in signal: total += signal['engagement'].get('score', 0)]:
    the amount one signal adds to the engagement total. *)
Definition engagement_of (signal : pyval) : result Q :=
  match signal with
  | PyDict d =>
      match d !! "engagement" with
      | Some e => e' ← as_dict_method e; as_number (dict_get e' "score" (PyInt 0))
      | None => Ok 0%Q
      end
  | PyStr s => if contains "engagement" s then Raise TypeError else Ok 0%Q
  | PyList l =>
      if existsb (fun v => match v with
                           | PyStr s => String.eqb s "engagement"
                           | _ => false
                           end) l
      then Raise TypeError else Ok 0%Q
  | _ => Raise TypeError
  end.

Fixpoint total_engagement (acc : Q) (signals : list pyval) : result Q :=
  match signals with
  | [] => Ok acc
  | s :: rest => e ← engagement_of s; total_engagement (acc + e)%Q rest
  end.

(** The five sub-scores as stored under [detailed_scores]. *)
Definition scores_dict (charter_fit : pyval) (evidence market : Z) : pydict :=
  <["charter_fit" := charter_fit]>
  (<["customer_evidence" := PyInt evidence]>
  (<["market_size" := PyInt market]>
  (<["feasibility" := PyInt 75]>
  (<["competitive_advantage" := PyInt 70]> ∅)))).

(** The weighted sum of the sub-scores, before rounding. *)
Definition weighted_sum (c : config.criteria) (cf : Q) (ce ms fe ca : Z) : Q :=
  (cf * config.charter_fit c
   + inject_Z ce * config.customer_evidence c
   + inject_Z ms * config.market_size c
   + inject_Z fe * config.feasibility c
   + inject_Z ca * config.competitive_advantage c)%Q.

(** Stable insertion into a list sorted by decreasing key. *)
Fixpoint insert_desc {A : Type} (x : Q * A) (l : list (Q * A)) : list (Q * A) :=
  match l with
  | [] => [x]
  | y :: l' =>
      if Qle_bool y.1 x.1 then x :: y :: l'
      else y :: insert_desc x l'
  end.

(** [l.sort(key=..., reverse=True)] on precomputed keys: decreasing, and
    items with equal keys keep their order. *)
Definition sort_desc {A : Type} (l : list (Q * A)) : list (Q * A) :=
  fold_right insert_desc [] l.

Section Scoring.

Variable rnd : round_to_tenth.
Variable score_customer_evidence : pydict -> result Z.
Variable score_market_size : pydict -> result Z.
Variable sort_key : pydict -> result pyval.

(** The body of the scoring loop for one opportunity. *)
Definition score_one (opp : pydict) : result pydict :=
  let charter_fit := dict_get opp "charter_fit_score" (PyInt 50) in
  ce ← score_customer_evidence opp;
  ms ← score_market_size opp;
  cf ← as_number charter_fit;
  let composite_score := weighted_sum config.SCORING_CRITERIA cf ce ms 75 70 in
  Ok (<["detailed_scores" := PyDict (scores_dict charter_fit ce ms)]>
      (<["composite_score" := PyFloat (rnd composite_score)]> opp)).

Definition keyed (opp : pydict) : result (Q * pydict) :=
  v ← sort_key opp; k ← as_number v; Ok (k, opp).

(** Score every opportunity, then sort by decreasing composite score. *)
Definition score_and_sort (opportunities : list pydict)
  : result (list pydict) :=
  scored ← for_each score_one opportunities;
  ks ← for_each keyed scored;
  Ok (map snd (sort_desc ks)).

End Scoring.

(** ** opportunity_analyzer.py *)

Module Basic.

(** The fields [_parse_analysis] starts from. *)
Definition blank_opportunity (source_signals : list pydict) (now : string)
  : pydict :=
  <["title" := PyStr ""]>
  (<["charter_fit_score" := PyInt 0]>
  (<["customer_pain_point" := PyStr ""]>
  (<["proposed_solution" := PyStr ""]>
  (<["market_size" := PyStr ""]>
  (<["competitive_intelligence" := PyStr ""]>
  (<["cultural_context" := PyStr ""]>
  (<["charter_expansion_angle" := PyStr ""]>
  (<["source_signals" := PyList (map PyDict source_signals)]>
  (<["analysis_date" := PyStr now]> ∅))))))))).

(** The field each value of [current_section] collects into. *)
Definition field_of_section (current_section : string) : option string :=
  if String.eqb current_section "pain_point" then Some "customer_pain_point"
  else if String.eqb current_section "solution" then Some "proposed_solution"
  else if String.eqb current_section "market_size" then Some "market_size"
  else if String.eqb current_section "competitive"
    then Some "competitive_intelligence"
  else if String.eqb current_section "cultural" then Some "cultural_context"
  else if String.eqb current_section "charter_expansion"
    then Some "charter_expansion_angle"
  else None.

Definition text_of (opp : pydict) (k : string) : string :=
  match opp !! k with
  | Some (PyStr s) => s
  | _ => ""
  end.

(** [opportunity[k] += line + " "] *)
Definition append_line (k line : string) (opp : pydict) : pydict :=
  <[k := PyStr (text_of opp k +:+ line +:+ " ")]> opp.

(** One iteration of the loop over the lines of the analysis; the state
    is the opportunity under construction and [current_section]. *)
Definition parse_line (st : pydict * option string) (raw : string)
  : pydict * option string :=
  let '(opportunity, current_section) := st in
  let line := strip raw in
  if contains "RELEVANCE" line || contains "CHARTER FIT" line then
    match search_int line with
    | Some n => (<["charter_fit_score" := PyInt n]> opportunity, current_section)
    | None => st
    end
  else if contains "CUSTOMER PAIN POINT" line then
    (opportunity, Some "pain_point")
  else if contains "OPPORTUNITY" line && negb (contains "MARKET SIZE" line) then
    (opportunity, Some "solution")
  else if contains "MARKET SIZE" line then (opportunity, Some "market_size")
  else if contains "COMPETITIVE INTELLIGENCE" line then
    (opportunity, Some "competitive")
  else if contains "CULTURAL CONTEXT" line then (opportunity, Some "cultural")
  else if contains "CHARTER EXPANSION" line then
    (opportunity, Some "charter_expansion")
  else
    match current_section with
    | Some sec =>
        if negb (String.eqb line "") then
          match field_of_section sec with
          | Some k => (append_line k line opportunity, current_section)
          | None => st
          end
        else st
    | None => st
    end.

(** [opportunity['proposed_solution'].split('.')[0][:100]] when the title
    is still empty and a solution was collected. *)
Definition generate_title (opportunity : pydict) : pydict :=
  if String.eqb (text_of opportunity "title") ""
     && negb (String.eqb (text_of opportunity "proposed_solution") "")
  then
    let first := hd "" (split "."%char (text_of opportunity "proposed_solution")) in
    <["title" := PyStr (prefix_of 100 first)]> opportunity
  else opportunity.

Definition score_of (opportunity : pydict) : Z :=
  match opportunity !! "charter_fit_score" with
  | Some (PyInt n) => n
  | _ => 0%Z
  end.

(** The opportunity record [_parse_analysis] has built when it reaches
    the threshold test. *)
Definition parsed_opportunity (analysis : string) (source_signals : list pydict)
    (now : string) : pydict :=
  generate_title
    (fold_left parse_line (split nl_char analysis)
       (blank_opportunity source_signals now, None)).1.

Definition _parse_analysis (analysis : string) (source_signals : list pydict)
    (now : string) : list pydict :=
  let opportunity := parsed_opportunity analysis source_signals now in
  if (config.CHARTER_FIT_THRESHOLD <=? score_of opportunity)%Z
  then [] ++ [opportunity]
  else [].

Definition default_batch_size : nat := 5.

Definition _batch_signals (signals : list pydict) (batch_size : nat)
  : result (list (list pydict)) :=
  batches_of signals batch_size.

(** [opp['title'].lower()[:50]] *)
Definition title_key (opp : pydict) : result string :=
  t ← dict_item opp "title";
  s ← as_str_method t;
  Ok (prefix_of 50 (lower s)).

(** One iteration of the loop of [_deduplicate_opportunities]; the state
    is the list [unique] and the set [seen_titles]. *)
Definition dedup_step (st : list pydict * gset string) (opp : pydict)
  : result (list pydict * gset string) :=
  let '(unique, seen_titles) := st in
  k ← title_key opp;
  if negb (bool_decide (k ∈ seen_titles))
  then Ok (unique ++ [opp], {[k]} ∪ seen_titles)
  else Ok st.

Definition _deduplicate_opportunities (opportunities : list pydict)
  : result (list pydict) :=
  st ← fold_loop dedup_step opportunities ([], ∅);
  Ok st.1.

Definition _score_customer_evidence (opportunity : pydict) : result Z :=
  let signals := dict_get opportunity "source_signals" (PyList []) in
  if negb (truthy signals) then Ok 50%Z
  else
    num_signals ← py_len signals;
    items ← py_iter signals;
    total ← total_engagement 0 items;
    let avg_engagement :=
      if (0 <? num_signals)%nat then (total / inject_Z (Z.of_nat num_signals))%Q
      else total in
    let score :=
      py_min 100 (50 + inject_Z (Z.of_nat num_signals * 5) + avg_engagement / 10) in
    Ok (py_int score).

Definition _score_market_size (opportunity : pydict) : result Z :=
  s ← as_str_method (dict_get opportunity "market_size" (PyStr ""));
  let market_text := lower s in
  if contains "billion" market_text
     || contains "$" market_text
        && (contains "b" market_text || contains "bn" market_text)
  then Ok 95%Z
  else if contains "million" market_text
          || contains "$" market_text
             && (contains "m" market_text || contains "mn" market_text)
  then Ok 85%Z
  else if contains "large" market_text || contains "significant" market_text
  then Ok 75%Z
  else Ok 60%Z.

(** [x['composite_score']] *)
Definition sort_key (x : pydict) : result pyval := dict_item x "composite_score".

Definition _score_opportunities (rnd : round_to_tenth)
    (opportunities : list pydict) : result (list pydict) :=
  score_and_sort rnd _score_customer_evidence _score_market_size sort_key
    opportunities.

End Basic.

(** ** opportunity_analyzer_improved.py *)

Module Improved.

(** What one call of [client.messages.create] does: it raises, or it
    returns a text. *)
Inductive service_reply : Type :=
| ServiceError
| ServiceText (text : string).

Record analyzer : Type := {
  api_key : string;
  opportunities : list pydict
}.

(** [ImprovedOpportunityAnalyzer.__init__]; [configured_key] is
    [config.ANTHROPIC_API_KEY], read from the process environment. *)
Definition __init__ (configured_key : string) (key : option string)
  : result analyzer :=
  let chosen :=
    match key with
    | Some k => if String.eqb k "" then configured_key else k
    | None => configured_key
    end in
  if String.eqb chosen "" then Raise ValueError
  else Ok {| api_key := chosen; opportunities := [] |}.

(** [opp.get('title', '').lower().strip()[:50]] *)
Definition title_key (opp : pydict) : result string :=
  s ← as_str_method (dict_get opp "title" (PyStr ""));
  Ok (prefix_of 50 (strip (lower s))).

(** One iteration of the loop of [_deduplicate_opportunities]; the state
    is the list [unique] and the set [seen_titles]. *)
Definition dedup_step (st : list pydict * gset string) (opp : pydict)
  : result (list pydict * gset string) :=
  let '(unique, seen_titles) := st in
  k ← title_key opp;
  if negb (String.eqb k "") && negb (bool_decide (k ∈ seen_titles))
  then Ok (unique ++ [opp], {[k]} ∪ seen_titles)
  else Ok st.

Definition _deduplicate_opportunities (opps : list pydict)
  : result (list pydict) :=
  st ← fold_loop dedup_step opps ([], ∅);
  Ok st.1.

Definition _score_customer_evidence (opportunity : pydict) : result Z :=
  let signals := dict_get opportunity "source_signals" (PyList []) in
  if negb (truthy signals) then Ok 60%Z
  else
    num_signals ← py_len signals;
    items ← py_iter signals;
    total ← total_engagement 0 items;
    let avg_engagement :=
      if (0 <? num_signals)%nat then (total / inject_Z (Z.of_nat num_signals))%Q
      else 0%Q in
    let score :=
      (50 + py_min 30 (inject_Z (Z.of_nat num_signals * 6))
          + py_min 20 (avg_engagement / 20))%Q in
    Ok (py_int (py_min 100 score)).

Definition _score_market_size (opportunity : pydict) : result Z :=
  s ← as_str_method (dict_get opportunity "market_size" (PyStr ""));
  let market_text := lower s in
  if any_in ["billion"; "$b"; "bn"] market_text then Ok 95%Z
  else if any_in ["million"; "$m"; "mn"; "$100"; "$200"; "$300"; "$400"] market_text
  then Ok 85%Z
  else if any_in ["large"; "significant"; "substantial"] market_text then Ok 75%Z
  else if negb (String.eqb market_text "") then Ok 65%Z
  else Ok 55%Z.

(** [x.get('composite_score', 0)] *)
Definition sort_key (x : pydict) : result pyval :=
  Ok (dict_get x "composite_score" (PyInt 0)).

Definition _score_and_rank (rnd : round_to_tenth) (opps all_signals : list pydict)
  : result (list pydict) :=
  score_and_sort rnd _score_customer_evidence _score_market_size sort_key opps.

(** One iteration of the line loop of [_fallback_parse]; the state is the
    list [opportunities] and the dict [current_opp]. *)
Definition fallback_line (st : list pydict * pydict) (raw : string)
  : list pydict * pydict :=
  let '(opps, current_opp) := st in
  let line := strip raw in
  let low := lower line in
  if contains "title" low && has_char ":"%char line then
    let opps' :=
      if negb (bool_decide (current_opp = ∅)) && has_key current_opp "title"
      then opps ++ [current_opp] else opps in
    (opps', {[ "title" := PyStr (strip_quotes (strip (after_first ":"%char line))) ]})
  else if contains "charter_fit_score" low || contains "score" low then
    match search_int line with
    | Some n => (opps, <["charter_fit_score" := PyInt n]> current_opp)
    | None => st
    end
  else if contains "pain_point" low || contains "customer" low then
    if has_char ":"%char line
    then (opps, <["customer_pain_point" := PyStr (strip (after_first ":"%char line))]> current_opp)
    else st
  else if contains "solution" low then
    if has_char ":"%char line
    then (opps, <["proposed_solution" := PyStr (strip (after_first ":"%char line))]> current_opp)
    else st
  else st.

(** The named defaults [_fallback_parse] fills in, in its order. *)
Definition fallback_defaults (signals : list pydict) : list (string * pyval) :=
  [ ("charter_fit_score", PyInt 75);
    ("customer_pain_point", PyStr "Customer feedback indicates opportunity");
    ("proposed_solution", PyStr "Solution to be developed");
    ("market_size", PyStr "Market size to be determined");
    ("competitive_intelligence", PyStr "Competitive analysis needed");
    ("cultural_context", PyStr "Cultural context relevant");
    ("charter_expansion_angle", PyStr "Expands charter scope");
    ("source_signals", PyList (map PyDict (take 3 signals))) ].

Definition fill_defaults (signals : list pydict) (opp : pydict) : pydict :=
  fold_left (fun o kv => setdefault kv.1 kv.2 o) (fallback_defaults signals) opp.

Definition _fallback_parse (response_text : string) (signals : list pydict)
  : list pydict :=
  let '(opps, current_opp) :=
    fold_left fallback_line (split nl_char response_text) ([], ∅) in
  let opps' :=
    if negb (bool_decide (current_opp = ∅)) && has_key current_opp "title"
    then opps ++ [current_opp] else opps in
  map (fill_defaults signals) opps'.

(** [0 < i <= n] *)
Definition index_in_range (n : nat) (i : pyval) : result bool :=
  match i with
  | PyInt z => Ok ((0 <? z)%Z && (z <=? Z.of_nat n)%Z)
  | PyFloat q => Ok (negb (Qle_bool q 0) && Qle_bool q (inject_Z (Z.of_nat n)))
  | _ => Raise TypeError
  end.

(** [signals[i-1]] *)
Definition signal_at (signals : list pydict) (i : pyval) : result pydict :=
  match i with
  | PyInt z => list_item signals (z - 1)
  | _ => Raise TypeError
  end.

(** [[signals[i-1] for i in signal_indices if 0 < i <= len(signals)]] *)
Fixpoint resolve_indices (signals : list pydict) (signal_indices : list pyval)
  : result (list pydict) :=
  match signal_indices with
  | [] => Ok []
  | i :: rest =>
      keep ← index_in_range (length signals) i;
      if keep : bool then
        s ← signal_at signals i;
        r ← resolve_indices signals rest;
        Ok (s :: r)
      else resolve_indices signals rest
  end.

(** The body of the loop "Enrich with source signals" for one parsed
    item; [now] is [datetime.now().isoformat()]. *)
Definition enrich (signals : list pydict) (now : string) (item : pyval)
  : result pydict :=
  opp ← as_dict_method item;
  signal_indices ← py_iter (dict_get opp "relevant_signal_indices" (PyList []));
  resolved ← resolve_indices signals signal_indices;
  let source_signals :=
    match resolved with
    | [] => take 3 signals
    | _ => resolved
    end in
  Ok (<["analysis_date" := PyStr now]>
      (<["source_signals" := PyList (map PyDict source_signals)]> opp)).

Section Service.

(** [str(v)], as used by the f-string of the prompt. *)
Variable py_str : pyval -> string.
(** [re.search(r'\[\s*\{.*?\}\s*\]', text, re.DOTALL)] and [.group()]. *)
Variable re_search_array : string -> option string.
(** [re.sub(r',(\s*[}\]])', r'\1', json_str)] *)
Variable strip_trailing_commas : string -> string.
(** [json.loads]; [None] stands for [JSONDecodeError]. *)
Variable json_loads : string -> option pyval.
(** The reply of the service to the [n]-th request, whose prompt is a
    fixed template around the formatted signals. *)
Variable client : nat -> string -> service_reply.
(** The clock, read once per enriched candidate. *)
Variable now : nat -> string.
Variable rnd : round_to_tenth.

(** [v[:400]] *)
Definition excerpt (v : pyval) : result pyval :=
  match v with
  | PyStr s => Ok (PyStr (prefix_of 400 s))
  | PyList l => Ok (PyList (take 400 l))
  | _ => Raise TypeError
  end.

(** The text for signal number [i]. *)
Definition format_signal (i : nat) (signal : pydict) : result string :=
  source ← dict_item signal "source";
  title ← dict_item signal "title";
  content ← dict_item signal "content";
  content' ← excerpt content;
  Ok (nl +:+ "Signal " +:+ py_str (PyInt (Z.of_nat i)) +:+ ":" +:+ nl
      +:+ "Source: " +:+ py_str source
      +:+ " (" +:+ py_str (dict_get signal "source_detail" (PyStr "N/A")) +:+ ")" +:+ nl
      +:+ "Market: " +:+ py_str (dict_get signal "market" (PyStr "unknown")) +:+ nl
      +:+ "Title: " +:+ py_str title +:+ nl
      +:+ "Content: " +:+ py_str content' +:+ nl
      +:+ "Date: " +:+ py_str (dict_get signal "date" (PyStr "N/A")) +:+ nl
      +:+ "URL: " +:+ py_str (dict_get signal "url" (PyStr "N/A")) +:+ nl).

Fixpoint format_from (i : nat) (signals : list pydict) : result (list string) :=
  match signals with
  | [] => Ok []
  | s :: rest => t ← format_signal i s; ts ← format_from (S i) rest; Ok (t :: ts)
  end.

Definition _format_signals_for_analysis (signals : list pydict) : result string :=
  formatted ← format_from 1 signals;
  Ok (join nl formatted).

Definition as_list (v : pyval) : list pyval :=
  match v with
  | PyList l => l
  | _ => [v]
  end.

Definition _extract_json_from_response (response_text : string) : list pyval :=
  match re_search_array response_text with
  | Some json_str =>
      match json_loads json_str with
      | Some v => as_list v
      | None =>
          match json_loads (strip_trailing_commas json_str) with
          | Some v => as_list v
          | None => []
          end
      end
  | None => []
  end.

(** The [try] block of [_analyze_batch_structured] for request [n]. *)
Definition attempt (n : nat) (signals : list pydict) (signals_text : string)
  : result (list pydict) :=
  match client n signals_text with
  | ServiceError => Raise ValueError
  | ServiceText text =>
      let response_text := strip text in
      let parsed := _extract_json_from_response response_text in
      let opps :=
        match parsed with
        | [] => map PyDict (_fallback_parse response_text signals)
        | _ => parsed
        end in
      for_each (enrich signals (now n)) opps
  end.

Definition _analyze_batch_structured (n : nat) (signals : list pydict)
  : result (list pydict) :=
  signals_text ← _format_signals_for_analysis signals;
  Ok (try_except (attempt n signals signals_text) []).

(** The loop over the batches; [n] numbers the requests. *)
Fixpoint analyze_batches (n : nat) (bs : list (list pydict))
  : result (list pydict) :=
  match bs with
  | [] => Ok []
  | batch :: rest =>
      batch_opps ← _analyze_batch_structured n batch;
      more ← analyze_batches (S n) rest;
      Ok (batch_opps ++ more)
  end.

Definition batch_size : nat := 8.

Definition analyze_signals (self : analyzer) (signals : list pydict)
  : result (analyzer * list pydict) :=
  if (length signals =? 0)%nat then Ok (self, [])
  else
    bs ← batches_of signals batch_size;
    all_opportunities ← analyze_batches 0 bs;
    unique ← _deduplicate_opportunities all_opportunities;
    ranked ← _score_and_rank rnd unique signals;
    Ok ({| api_key := api_key self; opportunities := ranked |}, ranked).

End Service.

End Improved.

(** ** opportunity_analyzer.py: the pipeline around the parser *)

Module BasicAnalyzer.

Section Service.

(** [str(v)], as used by the f-string of the prompt. *)
Variable py_str : pyval -> string.
(** The reply of the service to the [n]-th request: [None] when the call
    raises, else the text of the analysis.  The prompt is the configured
    template filled with the formatted signals and the source tag. *)
Variable client : nat -> string -> string -> option string.
(** The clock read by [_parse_analysis] for request [n]. *)
Variable now : nat -> string.
Variable rnd : round_to_tenth.

(** The text for signal number [i]. *)
Definition format_signal (i : nat) (signal : pydict) : result string :=
  title ← dict_item signal "title";
  source ← dict_item signal "source";
  market ← dict_item signal "market";
  content ← dict_item signal "content";
  content' ← Improved.excerpt content;
  url ← dict_item signal "url";
  date ← dict_item signal "date";
  Ok (nl +:+ "Signal " +:+ py_str (PyInt (Z.of_nat i)) +:+ ":" +:+ nl
      +:+ "Title: " +:+ py_str title +:+ nl
      +:+ "Source: " +:+ py_str source +:+ " - "
      +:+ py_str (dict_get signal "source_detail" (PyStr "N/A")) +:+ nl
      +:+ "Market: " +:+ py_str market +:+ nl
      +:+ "Content: " +:+ py_str content' +:+ nl
      +:+ "URL: " +:+ py_str url +:+ nl
      +:+ "Date: " +:+ py_str date +:+ nl).

Fixpoint format_from (i : nat) (signals : list pydict) : result (list string) :=
  match signals with
  | [] => Ok []
  | s :: rest => t ← format_signal i s; ts ← format_from (S i) rest; Ok (t :: ts)
  end.

Definition _format_signals_for_analysis (signals : list pydict) : result string :=
  formatted ← format_from 1 signals;
  Ok (join nl formatted).

(** [signals[0]['source'] if signals else "Multiple"] *)
Definition source_tag (signals : list pydict) : result pyval :=
  match signals with
  | s :: _ => dict_item s "source"
  | [] => Ok (PyStr "Multiple")
  end.

Definition _analyze_batch (n : nat) (signals : list pydict) : result (list pydict) :=
  batch_content ← _format_signals_for_analysis signals;
  source ← source_tag signals;
  Ok (match client n batch_content (py_str source) with
      | Some analysis => Basic._parse_analysis analysis signals (now n)
      | None => []
      end).

(** The loop over the batches; [n] numbers the requests. *)
Fixpoint analyze_batches (n : nat) (bs : list (list pydict)) : result (list pydict) :=
  match bs with
  | [] => Ok []
  | batch :: rest =>
      batch_opportunities ← _analyze_batch n batch;
      more ← analyze_batches (S n) rest;
      Ok (batch_opportunities ++ more)
  end.

Definition analyze_signals (signals : list pydict) : result (list pydict) :=
  signal_batches ← Basic._batch_signals signals Basic.default_batch_size;
  opportunities ← analyze_batches 0 signal_batches;
  unique ← Basic._deduplicate_opportunities opportunities;
  Basic._score_opportunities rnd unique.

End Service.

(** *** Strategic memos *)

(** [v[:n]]: lists and strings can be sliced; slicing a dict raises (a
    [TypeError] up to Python 3.11, where a slice cannot be hashed), and so
    does slicing a number or [None]. *)
Definition py_prefix (n : nat) (v : pyval) : result pyval :=
  match v with
  | PyList l => Ok (PyList (take n l))
  | PyStr s => Ok (PyStr (prefix_of n s))
  | _ => Raise TypeError
  end.

(** [v[0]]; the keys of a dict are strings, so [0] is none of them. *)
Definition py_first (v : pyval) : result pyval :=
  match v with
  | PyList l => list_item l 0
  | PyStr s =>
      match s with
      | String c _ => Ok (PyStr (String c EmptyString))
      | EmptyString => Raise IndexError
      end
  | PyDict _ => Raise KeyError
  | _ => Raise TypeError
  end.

(** [s['title']] for an item [s] of any type. *)
Definition item_title (s : pyval) : result pyval :=
  match s with
  | PyDict d => dict_item d "title"
  | _ => Raise TypeError
  end.

(** [l[:n]] for an int [n], negative bounds counting from the end. *)
Definition upto {A : Type} (l : list A) (n : Z) : list A :=
  take (Z.to_nat (if (n <? 0)%Z then (Z.of_nat (length l) + n)%Z else n)) l.

Section Memos.

Variable py_str : pyval -> string.
(** The reply of the service to the [n]-th memo request: [None] when
    anything inside the [try] raises, else the text of the memo.  The
    prompt is the configured template filled with the title, the market
    and the evidence lines. *)
Variable memo_client : nat -> string -> string -> string -> option string.

(** [f"- {s['title']}"] *)
Definition evidence_line (s : pyval) : result string :=
  t ← item_title s; Ok ("- " +:+ py_str t).

Definition _create_memo (n : nat) (opportunity : pydict) : result pydict :=
  shown ← py_prefix 5 (dict_get opportunity "source_signals" (PyList []));
  items ← py_iter shown;
  lines ← for_each evidence_line items;
  let evidence := join nl lines in
  opportunity_title ← dict_item opportunity "title";
  first ← py_first (dict_get opportunity "source_signals" (PyList [PyDict ∅]));
  first' ← as_dict_method first;
  let market := dict_get first' "market" (PyStr "Multiple markets") in
  let memo :=
    match memo_client n (py_str opportunity_title) (py_str market) evidence with
    | Some memo_text => memo_text
    | None => "Memo generation failed"
    end in
  Ok (<["opportunity" := PyDict opportunity]> (<["memo" := PyStr memo]> ∅)).

(** The loop over the opportunities; [n] numbers the requests. *)
Fixpoint memos_from (n : nat) (opps : list pydict) : result (list pydict) :=
  match opps with
  | [] => Ok []
  | opp :: rest =>
      memo ← _create_memo n opp;
      memos ← memos_from (S n) rest;
      Ok (memo :: memos)
  end.

(** [opportunities] is [self.opportunities], the list the last
    [analyze_signals] stored. *)
Definition generate_strategic_memos (opportunities : list pydict) (top_n : Z)
  : result (list pydict) :=
  memos_from 0 (upto opportunities top_n).

End Memos.

End BasicAnalyzer.

(** ** brief_generator.py: what the report reads off an opportunity *)

Module brief_generator.

(** [v >= n] for an int [n]; ordering a non-number against an int is a
    [TypeError]. *)
Definition at_least (v : pyval) (n : Z) : result bool :=
  q ← as_number v; Ok (Qle_bool (inject_Z n) q).

Definition _is_quick_win (opportunity : pydict) : result bool :=
  let score := dict_get opportunity "composite_score" (PyInt 0) in
  detailed ← as_dict_method (dict_get opportunity "detailed_scores" (PyDict ∅));
  let feasibility := dict_get detailed "feasibility" (PyInt 50) in
  high ← at_least score 75;
  if high : bool then at_least feasibility 80 else Ok false.

Definition _estimate_effort (opportunity : pydict) : result string :=
  detailed ← as_dict_method (dict_get opportunity "detailed_scores" (PyDict ∅));
  let feasibility := dict_get detailed "feasibility" (PyInt 50) in
  quick ← at_least feasibility 85;
  if quick : bool then Ok "1 quarter, 1-2 PMs"
  else
    medium ← at_least feasibility 70;
    if medium : bool then Ok "2 quarters, 2-3 PMs" else Ok "3+ quarters, 4+ PMs".

(** [[o for o in opportunities if o['composite_score'] >= 85]] *)
Fixpoint high_priority (opportunities : list pydict) : result (list pydict) :=
  match opportunities with
  | [] => Ok []
  | o :: rest =>
      score ← dict_item o "composite_score";
      keep ← at_least score 85;
      more ← high_priority rest;
      Ok (if keep : bool then o :: more else more)
  end.

(** [[o for o in opportunities if self._is_quick_win(o)]] *)
Fixpoint quick_wins (opportunities : list pydict) : result (list pydict) :=
  match opportunities with
  | [] => Ok []
  | o :: rest =>
      keep ← _is_quick_win o;
      more ← quick_wins rest;
      Ok (if keep : bool then o :: more else more)
  end.

End brief_generator.

(** ** A rounding to one decimal place, and sample data *)

(** Round half to even on the exact value: the number of tenths. *)
Definition half_even_tenths (x : Q) : Z :=
  let y := (x * 10)%Q in
  let f := Qfloor y in
  match (y - inject_Z f ?= 1 # 2)%Q with
  | Lt => f
  | Gt => (f + 1)%Z
  | Eq => if Z.even f then f else (f + 1)%Z
  end.

Definition half_even (x : Q) : Q := half_even_tenths x # 10.

Lemma tenth_as_mul (k : Z) : (k # 10 == inject_Z k * (1 # 10))%Q.
Proof. unfold Qeq; simpl; lia. Qed.

Lemma half_even_tenth (x : Q) : exists k : Z, half_even x = (k # 10)%Q.
Proof. by exists (half_even_tenths x). Qed.

Lemma half_even_near (x : Q) : (Qabs (half_even x - x) <= 1 # 20)%Q.
Proof.
  unfold half_even, half_even_tenths.
  pose proof (Qfloor_le (x * 10)) as Hlo.
  pose proof (Qlt_floor (x * 10)) as Hhi.
  set (f := Qfloor (x * 10)) in *. clearbody f.
  rewrite inject_Z_plus in Hhi. change (inject_Z 1) with 1%Q in Hhi.
  apply Qabs_Qle_condition.
  destruct (x * 10 - inject_Z f ?= 1 # 2)%Q eqn:Hc.
  - apply Qeq_alt in Hc. destruct (Z.even f).
    + rewrite tenth_as_mul. split; lra.
    + rewrite tenth_as_mul, inject_Z_plus. change (inject_Z 1) with 1%Q.
      split; lra.
  - apply Qlt_alt in Hc. rewrite tenth_as_mul. split; lra.
  - apply Qgt_alt in Hc. rewrite tenth_as_mul, inject_Z_plus.
    change (inject_Z 1) with 1%Q. split; lra.
Qed.

Definition round_half_even : round_to_tenth := {|
  round1 := half_even;
  round1_tenth := half_even_tenth;
  round1_near := half_even_near
|}.

(** A signal as the collectors build it. *)
Definition sample_signal (title : string) (engagement_score : Z) : pydict :=
  <["source" := PyStr "reddit"]>
  (<["source_detail" := PyStr "r/amazon"]>
  (<["title" := PyStr title]>
  (<["content" := PyStr "Alexa does not understand my accent."]>
  (<["url" := PyStr "https://reddit.com/r/amazon/1"]>
  (<["date" := PyStr "2026-01-05T10:00:00"]>
  (<["market" := PyStr "hispanic_us"]>
  (<["engagement" := PyDict (<["score" := PyInt engagement_score]>
                              (<["comments" := PyInt 12]> ∅))]> ∅))))))).

Definition sample_batch : list pydict :=
  [ sample_signal "s1" 40; sample_signal "s2" 10; sample_signal "s3" 0;
    sample_signal "s4" 25; sample_signal "s5" 300 ].

(** A candidate as the improved analyzer has it after enrichment. *)
Definition sample_opportunity (title : string) (fit : pyval) (market : string)
  : pydict :=
  <["title" := PyStr title]>
  (<["charter_fit_score" := fit]>
  (<["customer_pain_point" := PyStr "Voice search misses regional accents"]>
  (<["proposed_solution" := PyStr "Dialect-aware voice shopping"]>
  (<["market_size" := PyStr market]>
  (<["source_signals" := PyList (map PyDict (take 2 sample_batch))]>
  (<["analysis_date" := PyStr "2026-01-06T09:30:00"]> ∅)))))).

(** ** Predicates and sample inputs used in the statements *)

(** [ceil(n / b)] for a positive [b]. *)
Definition ceil_div (n b : nat) : nat := (n + b - 1) / b.

(** The market text of the counterexamples: no keyword of any tier. *)
Definition plain_market_text : string := "niche hobby market".

(** Two candidates whose titles differ by case and surrounding blanks
    only, and one without a title. *)
Definition dup_first : pydict :=
  sample_opportunity "Spanish Voice Search" (PyInt 70) "62 million shoppers".

Definition dup_second : pydict :=
  sample_opportunity "  spanish voice search " (PyInt 99) "3 billion".

Definition untitled : pydict :=
  sample_opportunity "" (PyInt 90) "large".

(** The title of a dict under construction, when set, is a string. *)
Definition title_is_text (o : pydict) : Prop :=
  forall v, o !! "title" = Some v -> exists t, v = PyStr t.

Definition titled (o : pydict) : Prop :=
  exists t, o !! "title" = Some (PyStr t).

(** The text of the example: two lines, each ended by a newline. *)
Definition fallback_example : string :=
  "title: Spanish Voice Search" +:+ nl +:+ "score: 90" +:+ nl.

(** The score field of the record under construction is always an int. *)
Definition int_scored (o : pydict) : Prop :=
  exists n, o !! "charter_fit_score" = Some (PyInt n).

(** [o'] is [o] with the two score fields set and nothing else changed. *)
Definition only_scores_added (o o' : pydict) : Prop :=
  (forall k : string,
     k <> "detailed_scores" -> k <> "composite_score" -> o' !! k = o !! k)
  /\ is_Some (o' !! "detailed_scores")
  /\ is_Some (o' !! "composite_score").

(** A response of the basic prompt format with a relevance of 40. *)
Definition low_fit_analysis : string :=
  "RELEVANCE: 40" +:+ nl +:+ "OPPORTUNITY" +:+ nl
  +:+ "Build dialect-aware voice search. Start with Mexican Spanish." +:+ nl.

(** The double-quote character, as a string. *)
Definition dq : string := String quote_char EmptyString.

(** A reply whose JSON gives the charter fit as a string: the text
    [[{"title": "Voice search", "charter_fit_score": "85"}]]. *)
Definition stringly_reply : string :=
  "[{" +:+ dq +:+ "title" +:+ dq +:+ ": " +:+ dq +:+ "Voice search" +:+ dq
  +:+ ", " +:+ dq +:+ "charter_fit_score" +:+ dq +:+ ": " +:+ dq +:+ "85" +:+ dq
  +:+ "}]".

(** What [json.loads] returns on that text. *)
Definition stringly_json : pyval :=
  PyList [PyDict (<["title" := PyStr "Voice search"]>
                  (<["charter_fit_score" := PyStr "85"]> ∅))].

(** A decoder that knows this one text. *)
Definition decode_stringly (s : string) : option pyval :=
  if String.eqb s stringly_reply then Some stringly_json else None.

(** The composite score stored in a scored opportunity. *)
Definition composite_of (o : pydict) : Q :=
  match o !! "composite_score" with
  | Some (PyFloat q) => q
  | _ => 0%Q
  end.

(** A signal dict whose engagement, when present, is a dict whose score,
    when present, is a non-negative int. *)
Definition nonneg_engagement (signal : pyval) : bool :=
  match signal with
  | PyDict d =>
      match d !! "engagement" with
      | None => true
      | Some (PyDict e) =>
          match dict_get e "score" (PyInt 0) with
          | PyInt n => (0 <=? n)%Z
          | _ => false
          end
      | Some _ => false
      end
  | _ => false
  end.

(** A reply that decodes to one good candidate followed by the number 3. *)
Definition mixed_items : list pyval :=
  [ PyDict (<["title" := PyStr "Voice search"]> (<["charter_fit_score" := PyInt 85]> ∅));
    PyInt 3 ].

(** A signal the improved prompt can be built from: it has a source, a
    title and a content that can be sliced. *)
Definition formattable (signal : pydict) : bool :=
  has_key signal "source" && has_key signal "title"
  && match signal !! "content" with
     | Some (PyStr _) | Some (PyList _) => true
     | _ => false
     end.



(** The record [_parse_analysis] works on while it reads the lines: the
    title is still empty, the collected texts are strings, the signals are
    those of the batch and the score is an int. *)
Definition parsing_state (batch : list pydict) (o : pydict) : Prop :=
  o !! "title" = Some (PyStr "")
  /\ (exists p, o !! "proposed_solution" = Some (PyStr p))
  /\ (exists m, o !! "market_size" = Some (PyStr m))
  /\ o !! "source_signals" = Some (PyList (map PyDict batch))
  /\ (exists n, o !! "charter_fit_score" = Some (PyInt n)).

(** A signal the basic prompt can be built from. *)
Definition basic_formattable (signal : pydict) : bool :=
  has_key signal "title" && has_key signal "source" && has_key signal "market"
  && match signal !! "content" with
     | Some (PyStr _) | Some (PyList _) => true
     | _ => false
     end
  && has_key signal "url" && has_key signal "date".

(** A candidate as the basic parser hands it on: string title and market
    size, the signals of some batch with non-negative engagement, and an
    int score that reaches the threshold. *)
Definition passed_candidate (o : pydict) : Prop :=
  (exists t, o !! "title" = Some (PyStr t))
  /\ (exists m, o !! "market_size" = Some (PyStr m))
  /\ (exists batch : list pydict,
        o !! "source_signals" = Some (PyList (map PyDict batch))
        /\ Forall (fun s => nonneg_engagement (PyDict s) = true) batch)
  /\ (exists n, o !! "charter_fit_score" = Some (PyInt n)
                /\ (config.CHARTER_FIT_THRESHOLD <= n)%Z).

(** A reply that decodes to two candidates with the same title key and a
    third one. *)
Definition duplicate_items : pyval :=
  PyList [ PyDict (<["title" := PyStr "Voice search"]>
                   (<["charter_fit_score" := PyInt 85]> ∅));
           PyDict (<["title" := PyStr " voice SEARCH "]>
                   (<["charter_fit_score" := PyInt 99]> ∅));
           PyDict (<["title" := PyStr "Quebec copy"]>
                   (<["charter_fit_score" := PyFloat 92.5]>
                   (<["market_size" := PyStr "3 billion"]> ∅))) ].

(** An item of [source_signals] whose title the memo can quote. *)
Definition titled_item (v : pyval) : bool :=
  match v with
  | PyDict d => has_key d "title"
  | _ => false
  end.

(** An opportunity a memo can be written for: it has a title, and its
    [source_signals] are either absent or a non-empty list whose first five
    items are dicts with a title. *)
Definition memo_ready (o : pydict) : bool :=
  has_key o "title"
  && match o !! "source_signals" with
     | None => true
     | Some (PyList (s :: l)) => forallb titled_item (take 5 (s :: l))
     | Some _ => false
     end.

(** A candidate of the basic pipeline together with the batch it came
    from. *)
Definition sourced_candidate (o : pydict) : Prop :=
  has_key o "title" = true
  /\ exists batch : list pydict,
       o !! "source_signals" = Some (PyList (map PyDict batch))
       /\ batch <> []
       /\ forallb basic_formattable batch = true.

(** An analysis of the basic prompt format that passes the threshold. *)
Definition high_fit_analysis : string :=
  "RELEVANCE: 90" +:+ nl +:+ "OPPORTUNITY" +:+ nl
  +:+ "Build dialect-aware voice search. Start with Mexican Spanish." +:+ nl.

(** ASCII text: every character below 128.  On such text [lower],
    [strip], [prefix_of] and [search_int] are [str.lower], [str.strip],
    slicing and the search for [\d+]. *)
Definition ascii_text (s : string) : bool :=
  forallb (fun c => (nat_of_ascii c <? 128)%nat) (list_ascii_of_string s).

(** A candidate whose title, if it is a string, is ASCII text. *)
Definition ascii_titled (o : pydict) : bool :=
  match o !! "title" with
  | Some (PyStr t) => ascii_text t
  | _ => true
  end.

(** The largest int up to which every int is a float: [2^53]. *)
Definition float_exact : Z := 2 ^ 53.

(** A signal whose engagement is missing, or a dict whose score is
    missing or an int between 0 and [2^53]: the average engagement then
    fits a float. *)
Definition modest_engagement (signal : pyval) : bool :=
  match signal with
  | PyDict d =>
      match d !! "engagement" with
      | None => true
      | Some (PyDict e) =>
          match dict_get e "score" (PyInt 0) with
          | PyInt n => (0 <=? n)%Z && (n <=? float_exact)%Z
          | _ => false
          end
      | Some _ => false
      end
  | _ => false
  end.

(** A charter fit inside the range of the data model: an int or a float
    between 0 and 100.  A NaN is not. *)
Definition score_in_range (v : pyval) : bool :=
  match v with
  | PyInt n => (0 <=? n)%Z && (n <=? 100)%Z
  | PyFloat q => Qle_bool 0 q && Qle_bool q 100
  | _ => false
  end.

(** A candidate inside the data model as far as the scorer reads it:
    charter fit in range (50 when missing), [source_signals] missing or a
    list of signals with modest engagement, [market_size] missing or a
    string. *)
Definition scorable_candidate (o : pydict) : bool :=
  score_in_range (dict_get o "charter_fit_score" (PyInt 50))
  && match o !! "source_signals" with
     | None => true
     | Some (PyList l) => forallb modest_engagement l
     | Some _ => false
     end
  && match o !! "market_size" with
     | None | Some (PyStr _) => true
     | Some _ => false
     end.

(** The run of digits [search_int] reads off a line. *)
Definition digit_run (line : string) : string :=
  take_while is_digit (drop_while (fun c => negb (is_digit c)) line).

(** A reply of the service made of ASCII text in which the first number
    of every line has at most 15 digits, so that it is below [2^53]. *)
Definition plain_reply (analysis : string) : bool :=
  ascii_text analysis
  && forallb (fun raw => (String.length (digit_run (strip raw)) <=? 15)%nat)
       (split nl_char analysis).

(** * Properties *)

(** ** Loops in the [result] monad *)

Lemma bind_Ok {A B : Type} (a : A) (f : A -> result B) : (Ok a ≫= f) = f a.
Proof. reflexivity. Qed.

Lemma bind_Raise {A B : Type} (e : exn) (f : A -> result B) :
  (Raise e ≫= f) = Raise e.
Proof. reflexivity. Qed.

(** Push known results through the binds of the goal. *)
Ltac run := repeat (rewrite bind_Ok || rewrite bind_Raise).

Lemma for_each_Forall2 {A B : Type} (f : A -> result B) (l : list A) (l' : list B) :
  for_each f l = Ok l' <-> Forall2 (fun x y => f x = Ok y) l l'.
Proof.
  revert l'. induction l as [|x l IH]; intros l'; simpl.
  - split.
    + intros [= <-]. constructor.
    + intros H. by inversion H.
  - split.
    + destruct (f x) as [y|e] eqn:Hx; simpl; [|done].
      destruct (for_each f l) as [ys|e] eqn:Hl; simpl; [|done].
      intros [= <-]. constructor; [done|]. by apply IH.
    + intros H. inversion H as [|? y ? ys Hx Hl]; subst.
      rewrite Hx. simpl. apply IH in Hl. rewrite Hl. done.
Qed.

Lemma for_each_total {A B : Type} (f : A -> result B) (l : list A) :
  Forall (fun x => is_Ok (f x) = true) l -> exists l', for_each f l = Ok l'.
Proof.
  induction 1 as [|x l Hx _ [l' IH]]; simpl.
  - by eexists.
  - destruct (f x) as [y|]; [|done]. rewrite IH. by eexists.
Qed.

Lemma fold_loop_app {A S : Type} (f : S -> A -> result S) (l1 l2 : list A) (s : S) :
  fold_loop f (l1 ++ l2) s = (s' ← fold_loop f l1 s; fold_loop f l2 s').
Proof.
  revert s. induction l1 as [|x l1 IH]; intros s; simpl; [done|].
  destruct (f s x) as [s'|e]; simpl; [apply IH|done].
Qed.

(** ** The batcher *)

Lemma ceil_div_step (m b : nat) :
  (0 < m)%nat -> (0 < b)%nat -> ceil_div m b = S (ceil_div (m - b) b).
Proof.
  intros Hm Hb. unfold ceil_div.
  destruct (Nat.le_gt_cases b m) as [Hle|Hgt].
  - replace (m + b - 1)%nat with ((m - b + b - 1) + 1 * b)%nat by lia.
    rewrite Nat.div_add by lia. lia.
  - replace (m - b)%nat with 0%nat by lia.
    rewrite (Nat.div_small (0 + b - 1) b) by lia.
    replace (m + b - 1)%nat with ((m - 1) + 1 * b)%nat by lia.
    rewrite Nat.div_add by lia. rewrite Nat.div_small by lia. done.
Qed.

Lemma range_from_spec (fuel i0 n b : nat) :
  (0 < b)%nat -> (n - i0 <= fuel)%nat ->
  range_from fuel i0 n b
  = map (fun k => (i0 + k * b)%nat) (seq 0 (ceil_div (n - i0) b)).
Proof.
  intros Hb. revert i0. induction fuel as [|fuel IH]; intros i0 Hfuel; simpl.
  - replace (n - i0)%nat with 0%nat by lia.
    unfold ceil_div. rewrite Nat.div_small by lia. done.
  - destruct (i0 <? n)%nat eqn:Hlt.
    + apply Nat.ltb_lt in Hlt.
      rewrite (ceil_div_step (n - i0) b) by lia. simpl.
      f_equal; [lia|].
      rewrite IH by lia. rewrite <- seq_shift, map_map.
      replace (n - i0 - b)%nat with (n - (i0 + b))%nat by lia.
      apply map_ext. intros k. lia.
    + apply Nat.ltb_ge in Hlt. replace (n - i0)%nat with 0%nat by lia.
      unfold ceil_div. rewrite Nat.div_small by lia. done.
Qed.

Lemma concat_slices {A : Type} (l : list A) (b c : nat) :
  (0 < b)%nat -> (length l <= c * b)%nat ->
  concat (map (fun i => slice l i (i + b)) (map (fun k => (0 + k * b)%nat) (seq 0 c))) = l.
Proof.
  intros Hb. revert l. induction c as [|c IH]; intros l Hlen; simpl.
  - destruct l; [done|simpl in Hlen; lia].
  - rewrite <- (take_drop b l) at 2. f_equal.
    + unfold slice. simpl. rewrite drop_0. f_equal. lia.
    + rewrite <- seq_shift, !map_map.
      rewrite <- (IH (drop b l)) at 1.
      * rewrite map_map. f_equal. apply map_ext. intros k.
        unfold slice. rewrite drop_drop.
        replace (S k * b + b - S k * b)%nat with b by lia.
        replace (0 + k * b + b - (0 + k * b))%nat with b by lia.
        do 2 f_equal.
      * rewrite length_drop. lia.
Qed.

Lemma ceil_div_covers (n b : nat) : (0 < b)%nat -> (n <= ceil_div n b * b)%nat.
Proof.
  intros Hb. unfold ceil_div.
  pose proof (Nat.div_mod_eq (n + b - 1) b) as Hdm.
  pose proof (Nat.mod_upper_bound (n + b - 1) b ltac:(lia)) as Hm.
  nia.
Qed.

Lemma ceil_div_tight (n b k : nat) :
  (0 < b)%nat -> (k < ceil_div n b)%nat -> (k * b < n)%nat.
Proof.
  intros Hb Hk. unfold ceil_div in Hk.
  pose proof (Nat.div_mod_eq (n + b - 1) b) as Hdm.
  pose proof (Nat.mod_upper_bound (n + b - 1) b ltac:(lia)) as Hm.
  nia.
Qed.

Lemma lookup_map {A B : Type} (f : A -> B) (l : list A) (k : nat) :
  map f l !! k = f <$> (l !! k).
Proof.
  revert k. induction l as [|x l IH]; intros [|k]; simpl; done.
Qed.

Lemma slice_length {A : Type} (l : list A) (i b : nat) :
  length (slice l i (i + b)) = Nat.min b (length l - i).
Proof.
  unfold slice. rewrite length_take, length_drop. lia.
Qed.

(** C2.  For a batch size [B >= 1] the batcher returns [ceil(N/B)] batches;
    batch number [k] is the slice [signals[k*B : k*B+B]], so the batches are
    contiguous, disjoint and in the original order; their concatenation is
    the input; every batch holds between 1 and [B] signals; and an empty
    input gives no batch.  [batches_of] is the loop of both analyzers
    ([_batch_signals] and the improved [analyze_signals]). *)
Theorem batcher_partitions {A : Type} (signals : list A) (B : nat) :
  (1 <= B)%nat ->
  exists batches,
    batches_of signals B = Ok batches
    /\ length batches = ceil_div (length signals) B
    /\ (forall k, (k < length batches)%nat ->
          batches !! k = Some (slice signals (k * B) (k * B + B)))
    /\ concat batches = signals
    /\ Forall (fun b => (1 <= length b <= B)%nat) batches
    /\ (signals = [] -> batches = []).
Proof.
  intros HB. unfold batches_of, py_range.
  destruct B as [|b]; [lia|]. simpl.
  rewrite range_from_spec by lia. rewrite Nat.sub_0_r.
  set (c := ceil_div (length signals) (S b)).
  set (bs := map _ (map _ (seq 0 c))).
  assert (Hlen : length bs = c).
  { unfold bs. by rewrite !length_map, length_seq. }
  assert (Hk : forall k, (k < length bs)%nat ->
             bs !! k = Some (slice signals (k * S b) (k * S b + S b))).
  { intros k Hlt. unfold bs. rewrite !lookup_map.
    rewrite lookup_seq_lt by lia. done. }
  exists bs. repeat split; try done.
  - apply concat_slices; [lia|]. apply ceil_div_covers. lia.
  - apply Forall_lookup. intros k x Hx.
    pose proof (lookup_lt_Some _ _ _ Hx) as Hlt.
    rewrite Hk in Hx by done. injection Hx as <-.
    rewrite slice_length.
    pose proof (ceil_div_tight (length signals) (S b) k ltac:(lia) ltac:(lia)).
    lia.
  - intros ->. apply length_zero_iff_nil. rewrite Hlen.
    unfold c, ceil_div. simpl length. apply Nat.div_small. lia.
Qed.

Lemma batcher_partitions_witness :
  exists batches,
    batches_of sample_batch 2 = Ok batches /\ concat batches = sample_batch.
Proof.
  destruct (batcher_partitions sample_batch 2 ltac:(lia))
    as (batches & Hrun & _ & _ & Hcat & _).
  exists batches. split; assumption.
Defined.

(** ** Index resolution *)

Lemma list_item_in_range {A : Type} (l : list A) (z : Z) :
  (1 <= z <= Z.of_nat (length l))%Z ->
  exists x, l !! Z.to_nat (z - 1) = Some x /\ list_item l (z - 1) = Ok x.
Proof.
  intros Hz. unfold list_item.
  destruct (z - 1 <? 0)%Z eqn:Hneg; [apply Z.ltb_lt in Hneg; lia|].
  rewrite Hneg.
  destruct (lookup_lt_is_Some_2 l (Z.to_nat (z - 1)) ltac:(lia)) as [x Hx].
  exists x. by rewrite Hx.
Qed.

Lemma index_in_range_int (n : nat) (z : Z) :
  Improved.index_in_range n (PyInt z)
  = Ok (bool_decide (1 <= z <= Z.of_nat n)%Z).
Proof.
  simpl. f_equal. case_bool_decide as H.
  - apply andb_true_iff. split; [apply Z.ltb_lt|apply Z.leb_le]; lia.
  - apply andb_false_iff.
    destruct (Z.ltb_spec 0 z); [right; apply Z.leb_gt; lia|by left].
Qed.

Lemma resolve_indices_ints (signals : list pydict) (zs : list Z) :
  exists picked,
    Improved.resolve_indices signals (map PyInt zs) = Ok picked
    /\ Forall2 (fun i s => signals !! Z.to_nat (i - 1) = Some s)
         (filter (fun i => (1 <= i <= Z.of_nat (length signals))%Z) zs) picked.
Proof.
  induction zs as [|z zs (picked & Hrun & Hpick)].
  - exists []. split; [done|constructor].
  - cbn [map Improved.resolve_indices]. rewrite index_in_range_int.
    rewrite filter_cons. run.
    case_bool_decide as Hz.
    + destruct (list_item_in_range signals z Hz) as (s & Hs & Hitem).
      cbn [Improved.signal_at]. rewrite Hitem. run. rewrite Hrun. run.
      exists (s :: picked). split; [done|].
      rewrite decide_True by done. by constructor.
    + exists picked. split; [done|]. by rewrite decide_False.
Qed.

(** C8.  For integer indices, resolution never raises: the resolved list
    holds, in order, exactly the batch signals at the indices [i] with
    [1 <= i <= len(batch)] (position [i-1]), every other index is skipped;
    the candidate's [source_signals] is that list, or the first three
    signals of the batch when it is empty; and [[1, 99]] against a batch of
    five resolves to the first signal alone. *)
Theorem index_resolution_bounds_checked
    (signals : list pydict) (zs : list Z) (opp : pydict) (now : string) :
  exists picked opp',
    Improved.resolve_indices signals (map PyInt zs) = Ok picked
    /\ Forall2 (fun i s => signals !! Z.to_nat (i - 1) = Some s)
         (filter (fun i => (1 <= i <= Z.of_nat (length signals))%Z) zs) picked
    /\ Improved.enrich signals now
         (PyDict (<["relevant_signal_indices" := PyList (map PyInt zs)]> opp))
       = Ok opp'
    /\ opp' !! "source_signals"
       = Some (PyList (map PyDict
                 (match picked with [] => take 3 signals | _ => picked end)))
    /\ (forall s1 s2 s3 s4 s5 : pydict,
          Improved.resolve_indices [s1; s2; s3; s4; s5] [PyInt 1; PyInt 99]
          = Ok [s1]).
Proof.
  destruct (resolve_indices_ints signals zs) as (picked & Hrun & Hpick).
  exists picked. eexists. split; [exact Hrun|]. split; [exact Hpick|].
  split; [|split].
  - unfold Improved.enrich. cbn [as_dict_method mbind result_bind].
    unfold dict_get. rewrite lookup_insert_eq. cbn [py_iter]. run.
    rewrite Hrun. reflexivity.
  - rewrite lookup_insert_ne by done. by rewrite lookup_insert_eq.
  - intros. reflexivity.
Qed.

(** ** Market-size tiers *)

Lemma lower_empty (s : string) : String.eqb (lower s) "" = String.eqb s "".
Proof. by destruct s. Qed.

Lemma lower_char_idem (c : ascii) : lower_char (lower_char c) = lower_char c.
Proof. destruct c as [[] [] [] [] [] [] [] []]; reflexivity. Qed.

Lemma lower_idem (s : string) : lower (lower s) = lower s.
Proof.
  induction s as [|c s IH]; simpl; [done|]. by rewrite lower_char_idem, IH.
Qed.

(** C4, as amended.  In the improved analyzer the market-size sub-score is
    a function of the lowercased [market_size] text alone, by tiers tried
    in this order: "billion", "$b" or "bn" gives 95; otherwise "million",
    "$m", "mn" or one of the dollar figures "$100", "$200", "$300", "$400"
    gives 85; otherwise "large", "significant" or "substantial" gives 75;
    otherwise a non-empty text gives 65; an empty or missing text gives 55.
    The basic analyzer has its own tiers and gives 60 where none applies. *)
Theorem market_size_keyword_tiers (opp : pydict) (text : string) :
  Improved._score_market_size (<["market_size" := PyStr text]> opp)
  = Ok (let t := lower text in
        if contains "billion" t || contains "$b" t || contains "bn" t
        then 95
        else if contains "million" t || contains "$m" t || contains "mn" t
                || contains "$100" t || contains "$200" t
                || contains "$300" t || contains "$400" t
        then 85
        else if contains "large" t || contains "significant" t
                || contains "substantial" t
        then 75
        else if negb (String.eqb text "") then 65
        else 55)%Z
  /\ Improved._score_market_size (<["market_size" := PyStr ""]> opp) = Ok 55%Z
  /\ Improved._score_market_size (delete "market_size" opp) = Ok 55%Z
  /\ Improved._score_market_size (<["market_size" := PyStr text]> opp)
     = Improved._score_market_size (<["market_size" := PyStr (lower text)]> ∅)
  /\ Basic._score_market_size (<["market_size" := PyStr text]> opp)
     = Ok (let t := lower text in
           if contains "billion" t
              || contains "$" t && (contains "b" t || contains "bn" t)
           then 95
           else if contains "million" t
                   || contains "$" t && (contains "m" t || contains "mn" t)
           then 85
           else if contains "large" t || contains "significant" t then 75
           else 60)%Z.
Proof.
  assert (Hrun : forall s,
    Improved._score_market_size (<["market_size" := PyStr s]> opp)
    = Ok (let t := lower s in
        if contains "billion" t || contains "$b" t || contains "bn" t
        then 95
        else if contains "million" t || contains "$m" t || contains "mn" t
                || contains "$100" t || contains "$200" t
                || contains "$300" t || contains "$400" t
        then 85
        else if contains "large" t || contains "significant" t
                || contains "substantial" t
        then 75
        else if negb (String.eqb (lower s) "") then 65
        else 55)%Z).
  { intros s. unfold Improved._score_market_size, dict_get.
    rewrite lookup_insert_eq. cbn [as_str_method]. run.
    unfold any_in. cbn [existsb]. rewrite !orb_false_r, !orb_assoc.
    cbv zeta.
    repeat match goal with |- context [if ?b then _ else _] =>
      destruct b; try reflexivity end. }
  split; [|split; [|split; [|split]]].
  - rewrite Hrun. by rewrite lower_empty.
  - by rewrite Hrun.
  - unfold Improved._score_market_size, dict_get. by rewrite lookup_delete_eq.
  - rewrite Hrun.
    unfold Improved._score_market_size at 1, dict_get.
    rewrite lookup_insert_eq. cbn [as_str_method]. run.
    unfold any_in. cbn [existsb]. rewrite !orb_false_r, !orb_assoc.
    cbv zeta. rewrite lower_idem.
    repeat match goal with |- context [if ?b then _ else _] =>
      destruct b; try reflexivity end.
  - unfold Basic._score_market_size, dict_get.
    rewrite lookup_insert_eq. cbn [as_str_method]. run. cbv zeta.
    repeat match goal with |- context [if ?b then _ else _] =>
      destruct b; try reflexivity end.
Qed.

(** C4 fails as stated on the basic analyzer: a non-empty text without any
    keyword scores 60 there, not 65, and the empty text scores 60, not 55. *)
Lemma market_size_basic_differs :
  Basic._score_market_size (sample_opportunity "Voice search" (PyInt 80) plain_market_text)
    = Ok 60%Z
  /\ Improved._score_market_size (sample_opportunity "Voice search" (PyInt 80) plain_market_text)
    = Ok 65%Z
  /\ Basic._score_market_size (sample_opportunity "Voice search" (PyInt 80) "")
    = Ok 60%Z
  /\ Improved._score_market_size (sample_opportunity "Voice search" (PyInt 80) "")
    = Ok 55%Z.
Proof. repeat split; vm_compute; reflexivity. Qed.

(** ** The deduplicator *)

Lemma Forall2_snoc_inv {A B : Type} (R : A -> B -> Prop) (l : list A) (x : A)
    (l' : list B) :
  Forall2 R (l ++ [x]) l' ->
  exists k y, l' = k ++ [y] /\ Forall2 R l k /\ R x y.
Proof.
  intros H. apply Forall2_app_inv_l in H as (k & r & Hk & Hr & ->).
  inversion Hr as [|? y ? r' Hxy Hnil]; subst. inversion Hnil; subst.
  by exists k, y.
Qed.

(** After the loop has run over [pre], [seen_titles] holds the non-empty
    keys met so far. *)
Lemma improved_dedup_state (pre : list pydict) (ks : list string) :
  Forall2 (fun o k => Improved.title_key o = Ok k) pre ks ->
  exists kept seen,
    fold_loop Improved.dedup_step pre ([], ∅) = Ok (kept, seen)
    /\ forall k : string, k ∈ seen <-> k <> "" /\ k ∈ ks.
Proof.
  revert ks. induction pre as [|o pre IH] using rev_ind; intros ks Hks.
  - inversion Hks; subst. exists [], ∅. split; [done|].
    intros k. split; [set_solver|]. intros [_ Hin]. by apply elem_of_nil in Hin.
  - apply Forall2_snoc_inv in Hks as (ks' & k0 & -> & Hks' & Hk0).
    destruct (IH ks' Hks') as (kept & seen & Hrun & Hseen).
    rewrite fold_loop_app, Hrun. run. cbn [fold_loop]. unfold Improved.dedup_step.
    rewrite Hk0. run.
    destruct (negb (String.eqb k0 "") && negb (bool_decide (k0 ∈ seen))) eqn:Hc; run.
    + apply andb_true_iff in Hc as [Hne Hnew].
      apply negb_true_iff, String.eqb_neq in Hne.
      eexists _, _. split; [reflexivity|]. intros k.
      rewrite elem_of_union, elem_of_singleton, elem_of_app, list_elem_of_singleton.
      rewrite Hseen. split.
      * intros [-> | [? ?]]; auto.
      * intros [? [? | ->]]; auto.
    + exists kept, seen. split; [done|]. intros k.
      rewrite elem_of_app, list_elem_of_singleton, Hseen. split.
      * intros [? ?]; auto.
      * intros [Hne [? | ->]]; [done|].
        apply andb_false_iff in Hc as [Hc|Hc].
        -- apply negb_false_iff, String.eqb_eq in Hc. done.
        -- apply negb_false_iff, bool_decide_eq_true in Hc.
           by apply Hseen in Hc.
Qed.




(** ** The fallback line scanner *)

Lemma setdefault_lookup (k j : string) (v : pyval) (d : pydict) :
  setdefault k v d !! j
  = if decide (k = j) then Some (default v (d !! j)) else d !! j.
Proof.
  unfold setdefault. destruct (decide (k = j)) as [->|Hne].
  - destruct (d !! j) as [x|] eqn:Hj; [by rewrite Hj|]. by rewrite lookup_insert_eq.
  - destruct (d !! k); [done|]. by rewrite lookup_insert_ne.
Qed.

Lemma fold_setdefault_other (l : list (string * pyval)) (d : pydict) (j : string) :
  j ∉ map fst l ->
  fold_left (fun o kv => setdefault kv.1 kv.2 o) l d !! j = d !! j.
Proof.
  revert d. induction l as [|[k v] l IH]; intros d Hj; simpl; [done|].
  rewrite IH.
  - rewrite setdefault_lookup. rewrite decide_False; [done|].
    intros ->. apply Hj. simpl. apply elem_of_cons. by left.
  - intros Hin. apply Hj. simpl. apply elem_of_cons. by right.
Qed.

Lemma fold_setdefault_lookup (l : list (string * pyval)) (d : pydict)
    (k : string) (v : pyval) :
  NoDup (map fst l) -> (k, v) ∈ l ->
  fold_left (fun o kv => setdefault kv.1 kv.2 o) l d !! k
  = Some (default v (d !! k)).
Proof.
  revert d. induction l as [|[k0 v0] l IH]; intros d Hnd Hin.
  - by apply elem_of_nil in Hin.
  - simpl in Hnd. apply NoDup_cons in Hnd as [Hk0 Hnd].
    apply elem_of_cons in Hin as [[= <- <-]|Hin]; simpl.
    + rewrite fold_setdefault_other by done.
      rewrite setdefault_lookup. by rewrite decide_True.
    + rewrite IH by done. rewrite setdefault_lookup.
      rewrite decide_False; [done|]. intros ->. apply Hk0.
      apply list_elem_of_In, in_map_iff. exists (k, v).
      split; [done|]. by apply list_elem_of_In.
Qed.

Lemma fallback_defaults_NoDup (signals : list pydict) :
  NoDup (map fst (Improved.fallback_defaults signals)).
Proof.
  simpl. apply (bool_decide_unpack _). vm_compute. exact I.
Qed.

Lemma titled_of_key (o : pydict) :
  title_is_text o -> has_key o "title" = true -> titled o.
Proof.
  unfold title_is_text, has_key, titled. intros Ht Hk.
  destruct (o !! "title") as [v|]; [|done].
  destruct (Ht v eq_refl) as [t ->]. by exists t.
Qed.

Lemma title_is_text_insert (k : string) (v : pyval) (o : pydict) :
  k <> "title" -> title_is_text o -> title_is_text (<[k := v]> o).
Proof.
  intros Hk Ht w. rewrite lookup_insert_ne by done. apply Ht.
Qed.

Lemma fallback_line_invariant (opps : list pydict) (cur : pydict) (raw : string) :
  Forall titled opps -> title_is_text cur ->
  Forall titled (Improved.fallback_line (opps, cur) raw).1
  /\ title_is_text (Improved.fallback_line (opps, cur) raw).2.
Proof.
  intros Hopps Hcur. unfold Improved.fallback_line.
  repeat match goal with
  | |- context [if ?b then _ else _] => destruct b eqn:?
  | |- context [match search_int ?s with _ => _ end] => destruct (search_int s)
  end; simpl; split;
    try done; try (apply title_is_text_insert; done).
  - apply Forall_app. split; [done|]. apply Forall_singleton.
    apply titled_of_key; [done|].
    match goal with H : _ && _ = true |- _ => by apply andb_true_iff in H as [_ ?] end.
  - intros v. rewrite lookup_singleton_eq. intros [= <-]. by eexists.
  - intros v. rewrite lookup_singleton_eq. intros [= <-]. by eexists.
Qed.

Lemma fallback_fold_invariant (lines : list string) (opps : list pydict) (cur : pydict) :
  Forall titled opps -> title_is_text cur ->
  Forall titled (fold_left Improved.fallback_line lines (opps, cur)).1
  /\ title_is_text (fold_left Improved.fallback_line lines (opps, cur)).2.
Proof.
  revert opps cur. induction lines as [|raw lines IH]; intros opps cur Ho Hc.
  - done.
  - cbn [fold_left].
    destruct (fallback_line_invariant opps cur raw Ho Hc) as [Ho' Hc'].
    destruct (Improved.fallback_line (opps, cur) raw) as [opps' cur'].
    by apply IH.
Qed.

(** C7.  For every response text and batch, every candidate the fallback
    parser returns has a title, which is a string, and has each of the
    eight fields with a named default: the value the scanner read for it,
    or else its default.  On the example text it returns exactly one
    candidate, titled "Spanish Voice Search", with [charter_fit_score] 90
    and every other field at its default ([source_signals] being the first
    three signals of the batch). *)
Theorem fallback_fills_every_field (response_text : string) (signals : list pydict) :
  Forall (fun o =>
            (exists t, o !! "title" = Some (PyStr t))
            /\ Forall (fun kv => exists x, o !! kv.1 = Some x)
                 (Improved.fallback_defaults signals))
    (Improved._fallback_parse response_text signals)
  /\ (forall c : pydict,
        Forall (fun kv => Improved.fill_defaults signals c !! kv.1
                          = Some (default kv.2 (c !! kv.1)))
          (Improved.fallback_defaults signals))
  /\ Improved._fallback_parse fallback_example signals
     = [ <["title" := PyStr "Spanish Voice Search"]>
         (<["charter_fit_score" := PyInt 90]>
         (<["customer_pain_point" := PyStr "Customer feedback indicates opportunity"]>
         (<["proposed_solution" := PyStr "Solution to be developed"]>
         (<["market_size" := PyStr "Market size to be determined"]>
         (<["competitive_intelligence" := PyStr "Competitive analysis needed"]>
         (<["cultural_context" := PyStr "Cultural context relevant"]>
         (<["charter_expansion_angle" := PyStr "Expands charter scope"]>
         (<["source_signals" := PyList (map PyDict (take 3 signals))]> ∅)))))))) ].
Proof.
  assert (Hfill : forall c : pydict,
    Forall (fun kv => Improved.fill_defaults signals c !! kv.1
                      = Some (default kv.2 (c !! kv.1)))
      (Improved.fallback_defaults signals)).
  { intros c. apply Forall_forall. intros [k v] Hin. simpl.
    apply fold_setdefault_lookup; [apply fallback_defaults_NoDup|done]. }
  split; [|split; [exact Hfill|]].
  - unfold Improved._fallback_parse.
    destruct (fallback_fold_invariant (split nl_char response_text) [] ∅)
      as [Hopps Hcur].
    { constructor. }
    { intros v. by rewrite lookup_empty. }
    destruct (fold_left _ _ _) as [opps cur]. simpl in Hopps, Hcur.
    apply Forall_map.
    assert (Hall : Forall titled
      (if negb (bool_decide (cur = ∅)) && has_key cur "title"
       then opps ++ [cur] else opps)).
    { destruct (negb _ && _) eqn:Hc; [|done].
      apply Forall_app. split; [done|]. apply Forall_singleton.
      apply titled_of_key; [done|]. by apply andb_true_iff in Hc as [_ ?]. }
    eapply Forall_impl; [exact Hall|]. intros o [t Ht]. split.
    + exists t. unfold Improved.fill_defaults.
      rewrite fold_setdefault_other; [done|].
      apply (bool_decide_unpack _). vm_compute. exact I.
    + eapply Forall_impl; [apply (Hfill o)|]. intros kv Hkv.
      eexists. exact Hkv.
  - vm_compute. reflexivity.
Qed.

(** ** The line-based parser of the basic analyzer *)

Lemma field_of_section_not_score (sec k : string) :
  Basic.field_of_section sec = Some k -> k <> "charter_fit_score".
Proof.
  unfold Basic.field_of_section.
  repeat match goal with
  | |- context [if ?b then _ else _] => destruct b
  end; intros [= <-]; done.
Qed.

Lemma parse_line_int_scored (o : pydict) (sec : option string) (raw : string) :
  int_scored o -> int_scored (Basic.parse_line (o, sec) raw).1.
Proof.
  intros Ho. unfold Basic.parse_line.
  repeat match goal with
  | |- context [if ?b then _ else _] => destruct b
  | |- context [match search_int ?s with _ => _ end] => destruct (search_int s)
  end; simpl; try done;
    try (by eexists; apply lookup_insert_eq).
  all: destruct sec as [sec|]; [|done].
  all: destruct (Basic.field_of_section sec) as [k|] eqn:Hk; [|done].
  all: simpl; destruct Ho as [n Hn]; exists n; unfold Basic.append_line.
  all: rewrite lookup_insert_ne; [done|]; by eapply field_of_section_not_score.
Qed.

Lemma parse_fold_int_scored (lines : list string) (o : pydict) (sec : option string) :
  int_scored o -> int_scored (fold_left Basic.parse_line lines (o, sec)).1.
Proof.
  revert o sec. induction lines as [|raw lines IH]; intros o sec Ho; [done|].
  cbn [fold_left]. pose proof (parse_line_int_scored o sec raw Ho) as Ho'.
  destruct (Basic.parse_line (o, sec) raw) as [o' sec']. by apply IH.
Qed.

Lemma parsed_opportunity_int_scored (analysis : string) (signals : list pydict)
    (now : string) :
  int_scored (Basic.parsed_opportunity analysis signals now).
Proof.
  unfold Basic.parsed_opportunity.
  pose proof (parse_fold_int_scored (split nl_char analysis)
    (Basic.blank_opportunity signals now) None) as H.
  destruct H as [n Hn].
  { exists 0%Z. unfold Basic.blank_opportunity.
    rewrite lookup_insert_ne by done. apply lookup_insert_eq. }
  exists n. unfold Basic.generate_title.
  destruct (_ && _); [|done]. by rewrite lookup_insert_ne.
Qed.

(** C9.  For every response text and batch, [_parse_analysis] builds one
    opportunity record for the whole response; its [charter_fit_score] is
    an integer [n]; the result is the list holding that record when [n]
    reaches [CHARTER_FIT_THRESHOLD] and the empty list otherwise, so the
    parser never returns two candidates. *)
Theorem parse_analysis_at_most_one
    (analysis : string) (source_signals : list pydict) (now : string) :
  exists n : Z,
    Basic.parsed_opportunity analysis source_signals now !! "charter_fit_score"
      = Some (PyInt n)
    /\ Basic._parse_analysis analysis source_signals now
       = (if (config.CHARTER_FIT_THRESHOLD <=? n)%Z
          then [Basic.parsed_opportunity analysis source_signals now]
          else [])
    /\ (length (Basic._parse_analysis analysis source_signals now) <= 1)%nat.
Proof.
  destruct (parsed_opportunity_int_scored analysis source_signals now) as [n Hn].
  exists n. split; [exact Hn|].
  unfold Basic._parse_analysis, Basic.score_of. rewrite Hn.
  destruct (config.CHARTER_FIT_THRESHOLD <=? n)%Z; simpl; split; (done || lia).
Qed.

(** ** The scorer and ranker *)

Lemma insert_desc_perm {A : Type} (x : Q * A) (l : list (Q * A)) :
  Permutation (x :: l) (insert_desc x l).
Proof.
  induction l as [|y l IH]; simpl; [done|].
  destruct (Qle_bool y.1 x.1); [done|].
  rewrite Permutation_swap. by apply Permutation_skip.
Qed.

Lemma sort_desc_perm {A : Type} (l : list (Q * A)) : Permutation l (sort_desc l).
Proof.
  induction l as [|x l IH]; simpl; [done|].
  rewrite <- insert_desc_perm. by apply Permutation_skip.
Qed.

Section ScoringFacts.

Variable rnd : round_to_tenth.
Variable evidence market : pydict -> result Z.
Variable sort_key : pydict -> result pyval.

(** What the loop body stores, when it does not raise. *)
Lemma score_one_Ok (o o' : pydict) :
  score_one rnd evidence market o = Ok o' ->
  exists (cf : Q) (ce ms : Z),
    as_number (dict_get o "charter_fit_score" (PyInt 50)) = Ok cf
    /\ evidence o = Ok ce /\ market o = Ok ms
    /\ o' = <["detailed_scores" :=
               PyDict (scores_dict (dict_get o "charter_fit_score" (PyInt 50)) ce ms)]>
            (<["composite_score" :=
               PyFloat (rnd (weighted_sum config.SCORING_CRITERIA cf ce ms 75 70))]> o).
Proof.
  unfold score_one.
  destruct (evidence o) as [ce|]; [|done]. run.
  destruct (market o) as [ms|]; [|done]. run.
  destruct (as_number _) as [cf|]; [|done]. run.
  intros [= <-]. by exists cf, ce, ms.
Qed.

(** The loop body leaves every other field alone. *)
Lemma score_one_frame (o o' : pydict) (k : string) :
  score_one rnd evidence market o = Ok o' ->
  k <> "detailed_scores" -> k <> "composite_score" -> o' !! k = o !! k.
Proof.
  intros H Hd Hc. apply score_one_Ok in H as (cf & ce & ms & _ & _ & _ & ->).
  by rewrite !lookup_insert_ne.
Qed.

Lemma score_one_scored (o o' : pydict) :
  score_one rnd evidence market o = Ok o' ->
  exists q, o' !! "composite_score" = Some (PyFloat q)
            /\ is_Some (o' !! "detailed_scores").
Proof.
  intros H. apply score_one_Ok in H as (cf & ce & ms & _ & _ & _ & ->).
  eexists. split.
  - rewrite lookup_insert_ne by done. apply lookup_insert_eq.
  - rewrite lookup_insert_eq. by eexists.
Qed.

(** The first exception of a loop is the exception of one of its items. *)
Lemma for_each_Raise {A B : Type} (f : A -> result B) (l : list A) (e : exn) :
  for_each f l = Raise e -> Exists (fun x => f x = Raise e) l.
Proof.
  induction l as [|x l IH]; simpl; [done|].
  destruct (f x) as [y|e'] eqn:Hx; run.
  - destruct (for_each f l) as [ys|e'']; run; [done|].
    intros [= ->]. apply Exists_cons_tl. by apply IH.
  - intros [= ->]. by apply Exists_cons_hd.
Qed.

(** Sorting returns the scored records, reordered, provided the sort key
    of a scored record is its composite score. *)
Lemma score_and_sort_Ok (opps scored : list pydict) :
  (forall o q, o !! "composite_score" = Some (PyFloat q) ->
               sort_key o = Ok (PyFloat q)) ->
  for_each (score_one rnd evidence market) opps = Ok scored ->
  exists out,
    score_and_sort rnd evidence market sort_key opps = Ok out
    /\ Permutation scored out.
Proof.
  intros Hkey Hscored. unfold score_and_sort. rewrite Hscored. run.
  apply for_each_Forall2 in Hscored.
  assert (Hks : for_each (keyed sort_key) scored
                = Ok (map (fun o => (match o !! "composite_score" with
                                     | Some (PyFloat q) => q
                                     | _ => 0%Q
                                     end, o)) scored)).
  { apply for_each_Forall2.
    induction Hscored as [|o o' l l' Ho _ IH]; simpl; constructor; [|done].
    apply score_one_scored in Ho as (q & Hq & _).
    unfold keyed. rewrite (Hkey _ _ Hq), Hq. done. }
  rewrite Hks. run. eexists. split; [reflexivity|].
  rewrite <- sort_desc_perm. rewrite map_map. simpl. by rewrite map_id.
Qed.

(** The scorer returns the scored records reordered, or raises what the
    scoring of one candidate raises. *)
Lemma score_and_sort_outcome (opps : list pydict) :
  (forall o q, o !! "composite_score" = Some (PyFloat q) ->
               sort_key o = Ok (PyFloat q)) ->
  match score_and_sort rnd evidence market sort_key opps with
  | Ok out =>
      exists scored,
        for_each (score_one rnd evidence market) opps = Ok scored
        /\ Permutation scored out
  | Raise e => Exists (fun o => score_one rnd evidence market o = Raise e) opps
  end.
Proof.
  intros Hkey.
  destruct (for_each (score_one rnd evidence market) opps) as [scored|e] eqn:Hs.
  - destruct (score_and_sort_Ok opps scored Hkey Hs) as (out & -> & Hperm).
    by exists scored.
  - unfold score_and_sort. rewrite Hs. run. by apply for_each_Raise.
Qed.

End ScoringFacts.

Lemma improved_sort_key (o : pydict) (q : Q) :
  o !! "composite_score" = Some (PyFloat q) ->
  Improved.sort_key o = Ok (PyFloat q).
Proof. intros H. unfold Improved.sort_key, dict_get. by rewrite H. Qed.

Lemma basic_sort_key (o : pydict) (q : Q) :
  o !! "composite_score" = Some (PyFloat q) ->
  Basic.sort_key o = Ok (PyFloat q).
Proof. intros H. unfold Basic.sort_key, dict_item. by rewrite H. Qed.



Lemma score_one_run (rnd : round_to_tenth) (evidence market : pydict -> result Z)
    (o : pydict) (cf : Q) (ce ms : Z) :
  as_number (dict_get o "charter_fit_score" (PyInt 50)) = Ok cf ->
  evidence o = Ok ce -> market o = Ok ms ->
  score_one rnd evidence market o
  = Ok (<["detailed_scores" :=
           PyDict (scores_dict (dict_get o "charter_fit_score" (PyInt 50)) ce ms)]>
        (<["composite_score" :=
           PyFloat (rnd (weighted_sum config.SCORING_CRITERIA cf ce ms 75 70))]> o)).
Proof. intros Hcf Hce Hms. unfold score_one. rewrite Hce, Hms, Hcf. by run. Qed.

Lemma scored_only_scores_added (rnd : round_to_tenth)
    (evidence market : pydict -> result Z) (opps scored : list pydict) :
  for_each (score_one rnd evidence market) opps = Ok scored ->
  Forall2 only_scores_added opps scored.
Proof.
  intros H. apply for_each_Forall2 in H.
  induction H as [|o o' l l' Ho _ IH]; constructor; [|done].
  split; [|split].
  - intros k. by apply (score_one_frame rnd evidence market o o' k).
  - by apply score_one_scored in Ho as (q & _ & ?).
  - apply score_one_scored in Ho as (q & -> & _). by eexists.
Qed.

(** C10.  The scorer/ranker of either analyzer returns a reordering of the
    candidates it was given, each with [detailed_scores] and
    [composite_score] set and every other field (title,
    charter_fit_score, customer_pain_point, proposed_solution, market_size,
    competitive_intelligence, cultural_context, charter_expansion_angle,
    source_signals, analysis_date and any further one) as it was; the only
    other outcome is the exception raised by the scoring of one of the
    candidates. *)
Theorem scorer_adds_two_fields_and_reorders
    (rnd : round_to_tenth) (opps all_signals : list pydict) :
  match Improved._score_and_rank rnd opps all_signals with
  | Ok out =>
      exists scored,
        Forall2 only_scores_added opps scored /\ Permutation scored out
  | Raise e =>
      Exists (fun o => score_one rnd Improved._score_customer_evidence
                         Improved._score_market_size o = Raise e) opps
  end
  /\ match Basic._score_opportunities rnd opps with
     | Ok out =>
         exists scored,
           Forall2 only_scores_added opps scored /\ Permutation scored out
     | Raise e =>
         Exists (fun o => score_one rnd Basic._score_customer_evidence
                            Basic._score_market_size o = Raise e) opps
     end.
Proof.
  split.
  - pose proof (score_and_sort_outcome rnd Improved._score_customer_evidence
      Improved._score_market_size Improved.sort_key opps improved_sort_key) as H.
    unfold Improved._score_and_rank. destruct (score_and_sort _ _ _ _ _); [|done].
    destruct H as (scored & Hs & Hperm). exists scored.
    split; [by eapply scored_only_scores_added|done].
  - pose proof (score_and_sort_outcome rnd Basic._score_customer_evidence
      Basic._score_market_size Basic.sort_key opps basic_sort_key) as H.
    unfold Basic._score_opportunities. destruct (score_and_sort _ _ _ _ _); [|done].
    destruct H as (scored & Hs & Hperm). exists scored.
    split; [by eapply scored_only_scores_added|done].
Qed.

(** ** The charter-fit threshold *)




(** ** Exceptions of [analyze_signals] *)

(** C6 fails on the code.  With one well-formed signal and a service that
    replies with a JSON array in which [charter_fit_score] is the string
    "85", the batch is parsed and enriched without error, the candidate
    survives deduplication, and the multiplication in [_score_and_rank],
    which is outside any [try], raises [TypeError] out of
    [analyze_signals]. *)
Theorem analyze_signals_raises_on_stringly_score
    (py_str : pyval -> string) (strip_trailing_commas : string -> string)
    (now : nat -> string) (rnd : round_to_tenth) (self : Improved.analyzer) :
  Improved.analyze_signals py_str (fun text => Some text) strip_trailing_commas
    decode_stringly (fun _ _ => Improved.ServiceText stringly_reply) now rnd
    self [sample_signal "s1" 40]
  = Raise TypeError.
Proof. vm_compute. reflexivity. Qed.

Section Absorbed.

Variable py_str : pyval -> string.
Variable re_search_array : string -> option string.
Variable strip_trailing_commas : string -> string.
Variable json_loads : string -> option pyval.
Variable client : nat -> string -> Improved.service_reply.
Variable now : nat -> string.
Variable rnd : round_to_tenth.

(** Zero signals give an empty list, without any request. *)
Lemma analyze_signals_empty (self : Improved.analyzer) :
  Improved.analyze_signals py_str re_search_array strip_trailing_commas
    json_loads client now rnd self [] = Ok (self, []).
Proof. reflexivity. Qed.

(** Whatever happens inside the [try] block, a batch whose signals can be
    formatted gives a list: an exception there gives the empty list. *)
Lemma batch_errors_absorbed (n : nat) (batch : list pydict) (text : string) :
  Improved._format_signals_for_analysis py_str batch = Ok text ->
  exists found,
    Improved._analyze_batch_structured py_str re_search_array
      strip_trailing_commas json_loads client now n batch = Ok found
    /\ (client n text = Improved.ServiceError -> found = []).
Proof.
  intros Hfmt. unfold Improved._analyze_batch_structured. rewrite Hfmt. run.
  eexists. split; [reflexivity|].
  intros Herr. unfold Improved.attempt. by rewrite Herr.
Qed.

End Absorbed.

(** The constructor raises exactly when neither the argument nor the
    configuration supplies a key. *)
Lemma init_raises_iff (configured_key : string) (key : option string) :
  Improved.__init__ configured_key key = Raise ValueError
  <-> configured_key = "" /\ (key = None \/ key = Some "").
Proof.
  unfold Improved.__init__. split.
  - destruct key as [k|].
    + destruct (String.eqb_spec k "") as [->|Hk].
      * destruct (String.eqb_spec configured_key ""); [auto|done].
      * destruct (String.eqb_spec k ""); done.
    + destruct (String.eqb_spec configured_key ""); [auto|done].
  - intros [-> [-> | ->]]; reflexivity.
Qed.

(** * Further properties of the code *)

(** ** The batcher: full batches *)

Lemma batches_of_slices {A : Type} (signals : list A) (B : nat) :
  (1 <= B)%nat ->
  batches_of signals B
  = Ok (map (fun k => slice signals (k * B) (k * B + B))
          (seq 0 (ceil_div (length signals) B))).
Proof.
  intros HB. unfold batches_of, py_range.
  destruct B as [|b]; [lia|]. run.
  rewrite range_from_spec by lia. rewrite Nat.sub_0_r, map_map. done.
Qed.

Lemma batches_of_concat {A : Type} (signals : list A) (B : nat) (bs : list (list A)) :
  batches_of signals B = Ok bs -> concat bs = signals.
Proof.
  destruct B as [|b]; [done|].
  rewrite batches_of_slices by lia. intros [= <-].
  rewrite <- (concat_slices signals (S b) (ceil_div (length signals) (S b)))
    at 2; [|lia|apply ceil_div_covers; lia].
  by rewrite map_map.
Qed.

(** Every batch but the last holds exactly [B] signals, and the last one
    holds the [N - (c-1)*B] signals that remain, [c] being the number of
    batches. *)
Theorem batches_full_but_last {A : Type} (signals : list A) (B : nat) :
  (1 <= B)%nat ->
  exists batches,
    batches_of signals B = Ok batches
    /\ (forall k b, batches !! k = Some b -> (S k < length batches)%nat ->
          length b = B)
    /\ (forall b, last batches = Some b ->
          length b = (length signals - (length batches - 1) * B)%nat).
Proof.
  intros HB. rewrite batches_of_slices by done.
  set (c := ceil_div (length signals) B).
  eexists. split; [reflexivity|].
  assert (Hk : forall k b,
    map (fun k => slice signals (k * B) (k * B + B)) (seq 0 c) !! k = Some b ->
    (k < c)%nat /\ b = slice signals (k * B) (k * B + B)).
  { intros k b Hb. rewrite lookup_map in Hb.
    destruct (seq 0 c !! k) as [j|] eqn:Hj; [|done].
    apply lookup_seq in Hj as [-> Hlt]. injection Hb as <-. done. }
  split.
  - intros k b Hb Hlast. rewrite length_map, length_seq in Hlast.
    apply Hk in Hb as [_ ->]. rewrite slice_length.
    pose proof (ceil_div_tight (length signals) B (S k) ltac:(lia) Hlast).
    lia.
  - intros b Hb. rewrite last_lookup in Hb.
    rewrite length_map, length_seq in Hb |- *.
    apply Hk in Hb as [Hlt ->]. rewrite slice_length.
    pose proof (ceil_div_covers (length signals) B ltac:(lia)).
    fold c in H. replace (Init.Nat.pred c) with (c - 1)%nat in * by lia.
    nia.
Qed.

Lemma batches_full_but_last_witness :
  exists batches,
    batches_of sample_batch 2 = Ok batches
    /\ (forall k b, batches !! k = Some b -> (S k < length batches)%nat ->
          length b = 2%nat).
Proof.
  destruct (batches_full_but_last sample_batch 2 ltac:(lia))
    as (batches & Hrun & Hfull & _).
  exists batches. split; assumption.
Defined.

(** ** The ranker: order and stability *)

Lemma insert_desc_sorted {A : Type} (x : Q * A) (l : list (Q * A)) :
  StronglySorted (fun a b => (b.1 <= a.1)%Q) l ->
  StronglySorted (fun a b => (b.1 <= a.1)%Q) (insert_desc x l).
Proof.
  induction 1 as [|y l Hl IH Hy]; simpl.
  - repeat constructor.
  - destruct (Qle_bool y.1 x.1) eqn:Hc.
    + apply Qle_bool_iff in Hc. constructor; [by constructor|].
      constructor; [done|].
      eapply Forall_impl; [exact Hy|]. intros z Hz. simpl in Hz.
      by eapply Qle_trans.
    + assert (Hlt : (x.1 < y.1)%Q).
      { apply Qnot_le_lt. intros Hle. apply Qle_bool_iff in Hle. congruence. }
      constructor; [done|].
      eapply Permutation_Forall; [apply insert_desc_perm|].
      constructor; [by apply Qlt_le_weak|done].
Qed.

Lemma sort_desc_sorted {A : Type} (l : list (Q * A)) :
  StronglySorted (fun a b => (b.1 <= a.1)%Q) (sort_desc l).
Proof.
  induction l as [|x l IH]; simpl; [constructor|]. by apply insert_desc_sorted.
Qed.

Lemma insert_desc_stable {A : Type} (x : Q * A) (l : list (Q * A)) (q : Q) :
  List.filter (fun p => Qeq_bool p.1 q) (insert_desc x l)
  = List.filter (fun p => Qeq_bool p.1 q) (x :: l).
Proof.
  induction l as [|y l IH]; [done|]. cbn [insert_desc].
  destruct (Qle_bool y.1 x.1) eqn:Hc; [done|].
  cbn [List.filter] in *. rewrite IH.
  destruct (Qeq_bool x.1 q) eqn:Hx; [|done].
  destruct (Qeq_bool y.1 q) eqn:Hy; [|done].
  apply Qeq_bool_iff in Hx, Hy.
  assert (Hle : (y.1 <= x.1)%Q) by (rewrite Hx, Hy; apply Qle_refl).
  apply Qle_bool_iff in Hle. congruence.
Qed.

Lemma sort_desc_stable {A : Type} (l : list (Q * A)) (q : Q) :
  List.filter (fun p => Qeq_bool p.1 q) (sort_desc l)
  = List.filter (fun p => Qeq_bool p.1 q) l.
Proof.
  induction l as [|x l IH]; [done|]. cbn [sort_desc fold_right].
  rewrite insert_desc_stable. cbn [List.filter].
  unfold sort_desc in IH. by rewrite IH.
Qed.

Lemma keyed_by_composite (rnd : round_to_tenth)
    (evidence market : pydict -> result Z) (sort_key : pydict -> result pyval)
    (opps scored : list pydict) :
  (forall o q, o !! "composite_score" = Some (PyFloat q) ->
               sort_key o = Ok (PyFloat q)) ->
  for_each (score_one rnd evidence market) opps = Ok scored ->
  score_and_sort rnd evidence market sort_key opps
  = Ok (map snd (sort_desc (map (fun o => (composite_of o, o)) scored))).
Proof.
  intros Hkey Hscored. unfold score_and_sort. rewrite Hscored. run.
  apply for_each_Forall2 in Hscored.
  assert (Hks : for_each (keyed sort_key) scored
                = Ok (map (fun o => (composite_of o, o)) scored)).
  { apply for_each_Forall2.
    induction Hscored as [|o o' l l' Ho _ IH]; simpl; constructor; [|done].
    apply score_one_scored in Ho as (q & Hq & _).
    unfold keyed, composite_of. rewrite (Hkey _ _ Hq), Hq. done. }
  by rewrite Hks.
Qed.

Lemma sorted_by_key {A : Type} (f : A -> Q) (ks : list (Q * A)) :
  Forall (fun p => p.1 = f p.2) ks ->
  StronglySorted (fun a b => (b.1 <= a.1)%Q) ks ->
  StronglySorted (fun a b => (f b <= f a)%Q) (map snd ks).
Proof.
  intros Hf Hs. induction Hs as [|p ks Hs IH Hp]; simpl; [constructor|].
  apply Forall_cons in Hf as [Hfp Hf]. constructor; [by apply IH|].
  apply Forall_map. apply Forall_forall. intros z Hz.
  rewrite Forall_forall in Hp, Hf. simpl.
  rewrite <- Hfp, <- (Hf z Hz). by apply Hp.
Qed.

Lemma filter_by_key {A : Type} (f : A -> Q) (ks : list (Q * A)) (q : Q) :
  Forall (fun p => p.1 = f p.2) ks ->
  List.filter (fun o => Qeq_bool (f o) q) (map snd ks)
  = map snd (List.filter (fun p => Qeq_bool p.1 q) ks).
Proof.
  induction 1 as [|p ks Hp _ IH]; simpl; [done|].
  rewrite <- Hp. destruct (Qeq_bool p.1 q); simpl; by rewrite IH.
Qed.

Lemma keys_are_composites (l : list pydict) :
  Forall (fun p : Q * pydict => p.1 = composite_of p.2)
    (map (fun o => (composite_of o, o)) l).
Proof. apply Forall_map. by apply Forall_forall. Qed.

(** ** The deduplicator: what it keeps and when it raises *)

(** The state of the loop after [pre]: the kept candidates are a
    subsequence of [pre], their keys are distinct and non-empty, they are
    the keys in [seen_titles], and every non-empty key of [pre] is among
    them. *)
Lemma improved_dedup_kept (pre : list pydict) (ks : list string) :
  Forall2 (fun o k => Improved.title_key o = Ok k) pre ks ->
  exists kept seen kk,
    fold_loop Improved.dedup_step pre ([], ∅) = Ok (kept, seen)
    /\ kept `sublist_of` pre
    /\ Forall2 (fun o k => Improved.title_key o = Ok k) kept kk
    /\ NoDup kk
    /\ (forall k : string, k ∈ kk <-> k ∈ seen)
    /\ (forall k : string, k ∈ seen <-> k <> "" /\ k ∈ ks).
Proof.
  revert ks. induction pre as [|o pre IH] using rev_ind; intros ks Hks.
  - inversion Hks; subst. exists [], ∅, [].
    split; [done|]. split; [constructor|]. split; [constructor|].
    split; [constructor|]. split; intros k; split.
    + intros H. by apply elem_of_nil in H.
    + intros H. by apply elem_of_empty in H.
    + intros H. by apply elem_of_empty in H.
    + intros [_ H]. by apply elem_of_nil in H.
  - apply Forall2_snoc_inv in Hks as (ks' & k0 & -> & Hks' & Hk0).
    destruct (IH ks' Hks') as (kept & seen & kk & Hrun & Hsub & Hkk & Hnd & Hin & Hseen).
    rewrite fold_loop_app, Hrun. run. cbn [fold_loop]. unfold Improved.dedup_step.
    rewrite Hk0. run.
    destruct (negb (String.eqb k0 "") && negb (bool_decide (k0 ∈ seen))) eqn:Hc; run.
    + apply andb_true_iff in Hc as [Hne Hnew].
      apply negb_true_iff, String.eqb_neq in Hne.
      apply negb_true_iff, bool_decide_eq_false in Hnew.
      exists (kept ++ [o]), ({[k0]} ∪ seen), (kk ++ [k0]).
      split; [done|]. split; [by apply sublist_app|].
      split; [apply Forall2_app; [done|by repeat constructor]|].
      split.
      { apply NoDup_app. split; [done|]. split; [|apply NoDup_singleton].
        intros k Hk ->%list_elem_of_singleton. by apply Hnew, Hin. }
      split.
      { intros k. rewrite elem_of_app, list_elem_of_singleton, elem_of_union,
          elem_of_singleton, Hin. tauto. }
      intros k. rewrite elem_of_union, elem_of_singleton, elem_of_app,
        list_elem_of_singleton, Hseen. split.
      * intros [-> | [? ?]]; auto.
      * intros [? [? | ->]]; auto.
    + exists kept, seen, kk. split; [done|].
      split; [by apply sublist_inserts_r|]. split; [done|]. split; [done|].
      split; [done|]. intros k.
      rewrite elem_of_app, list_elem_of_singleton, Hseen. split.
      * intros [? ?]; auto.
      * intros [Hne [? | ->]]; [done|].
        apply andb_false_iff in Hc as [Hc|Hc].
        -- apply negb_false_iff, String.eqb_eq in Hc. done.
        -- apply negb_false_iff, bool_decide_eq_true in Hc.
           by apply Hseen in Hc.
Qed.

(** When every title is a string or missing, the improved deduplicator
    returns a subsequence of its input whose title keys are pairwise
    distinct and non-empty, and every non-empty key of the input is the key
    of a kept candidate. *)
Theorem dedup_keeps_distinct_keys (opps : list pydict) (ks : list string) :
  for_each Improved.title_key opps = Ok ks ->
  exists kept kk,
    Improved._deduplicate_opportunities opps = Ok kept
    /\ kept `sublist_of` opps
    /\ for_each Improved.title_key kept = Ok kk
    /\ NoDup kk
    /\ (forall k : string, k ∈ kk <-> k <> "" /\ k ∈ ks).
Proof.
  intros Hks. apply for_each_Forall2 in Hks.
  destruct (improved_dedup_kept opps ks Hks)
    as (kept & seen & kk & Hrun & Hsub & Hkk & Hnd & Hin & Hseen).
  exists kept, kk. unfold Improved._deduplicate_opportunities. rewrite Hrun. run.
  split; [done|]. split; [done|]. split; [by apply for_each_Forall2|].
  split; [done|]. intros k. by rewrite Hin, Hseen.
Qed.

Lemma dedup_keeps_distinct_keys_witness :
  exists kept kk,
    Improved._deduplicate_opportunities [dup_first; untitled; dup_second] = Ok kept
    /\ for_each Improved.title_key kept = Ok kk
    /\ NoDup kk.
Proof.
  destruct (dedup_keeps_distinct_keys [dup_first; untitled; dup_second]
              ["spanish voice search"; ""; "spanish voice search"]
              ltac:(vm_compute; reflexivity))
    as (kept & kk & Hrun & _ & Hkk & Hnd & _).
  exists kept, kk. repeat split; assumption.
Defined.

(** A list whose keys are distinct and non-empty goes through unchanged. *)
Lemma improved_dedup_fixed (l : list pydict) (kk : list string) :
  Forall2 (fun o k => Improved.title_key o = Ok k) l kk ->
  NoDup kk -> "" ∉ kk ->
  exists seen, fold_loop Improved.dedup_step l ([], ∅) = Ok (l, seen).
Proof.
  revert kk. induction l as [|o l IH] using rev_ind; intros kk Hkk Hnd Hne.
  - by exists ∅.
  - apply Forall2_snoc_inv in Hkk as (kk' & k0 & -> & Hkk' & Hk0).
    apply NoDup_app in Hnd as (Hnd' & Hfresh & _).
    destruct (IH kk' Hkk' Hnd') as (seen & Hrun).
    { intros Hin. apply Hne, elem_of_app. by left. }
    destruct (improved_dedup_state l kk' Hkk') as (kept' & seen' & Hrun' & Hseen).
    rewrite Hrun in Hrun'. injection Hrun' as <- <-.
    rewrite fold_loop_app, Hrun. run. cbn [fold_loop]. unfold Improved.dedup_step.
    rewrite Hk0. run.
    assert (Hk0ne : k0 <> "").
    { intros ->. apply Hne, elem_of_app. right. by apply list_elem_of_singleton. }
    assert (Hk0new : k0 ∉ seen).
    { intros [_ Hin]%Hseen. apply (Hfresh k0 Hin). by apply list_elem_of_singleton. }
    apply String.eqb_neq in Hk0ne. rewrite Hk0ne.
    rewrite bool_decide_eq_false_2 by done. cbn. by eexists.
Qed.

(** Deduplicating the result of the improved deduplicator changes
    nothing. *)
Theorem dedup_idempotent (opps : list pydict) (ks : list string) :
  for_each Improved.title_key opps = Ok ks ->
  exists kept,
    Improved._deduplicate_opportunities opps = Ok kept
    /\ Improved._deduplicate_opportunities kept = Ok kept.
Proof.
  intros Hks. apply for_each_Forall2 in Hks.
  destruct (improved_dedup_kept opps ks Hks)
    as (kept & seen & kk & Hrun & Hsub & Hkk & Hnd & Hin & Hseen).
  exists kept. unfold Improved._deduplicate_opportunities. rewrite Hrun. run.
  split; [done|].
  destruct (improved_dedup_fixed kept kk Hkk Hnd) as (seen' & ->); [|done].
  intros Hempty. apply Hin, Hseen in Hempty as [? _]. done.
Qed.

Lemma dedup_idempotent_witness :
  exists kept,
    Improved._deduplicate_opportunities [dup_first; untitled; dup_second] = Ok kept
    /\ Improved._deduplicate_opportunities kept = Ok kept.
Proof.
  apply (dedup_idempotent [dup_first; untitled; dup_second]
           ["spanish voice search"; ""; "spanish voice search"]).
  vm_compute. reflexivity.
Defined.

Lemma improved_title_key_Ok (o : pydict) :
  is_Ok (Improved.title_key o) = true
  <-> o !! "title" = None \/ exists t, o !! "title" = Some (PyStr t).
Proof.
  unfold Improved.title_key, dict_get.
  destruct (o !! "title") as [[]|]; simpl; split; intros H;
    try done; try (by left); try (right; by eexists);
    destruct H as [|[? ?]]; done.
Qed.

Lemma improved_title_key_Raise (o : pydict) (e : exn) :
  Improved.title_key o = Raise e -> e = AttributeError.
Proof.
  unfold Improved.title_key, dict_get.
  destruct (o !! "title") as [[]|]; simpl; intros [= <-]; done.
Qed.

Lemma improved_dedup_step_Raise (st : list pydict * gset string) (o : pydict) (e : exn) :
  Improved.dedup_step st o = Raise e -> Improved.title_key o = Raise e.
Proof.
  destruct st as [unique seen]. unfold Improved.dedup_step.
  destruct (Improved.title_key o) as [k|e']; run.
  - by destruct (_ && _).
  - by intros [= ->].
Qed.

Lemma improved_dedup_step_Ok (st : list pydict * gset string) (o : pydict) :
  is_Ok (Improved.title_key o) = true -> is_Ok (Improved.dedup_step st o) = true.
Proof.
  destruct st as [unique seen]. unfold Improved.dedup_step.
  destruct (Improved.title_key o) as [k|e']; run; [|done].
  by destruct (_ && _).
Qed.

Lemma improved_dedup_loop_Raise (l : list pydict) (st : list pydict * gset string)
    (e : exn) :
  fold_loop Improved.dedup_step l st = Raise e ->
  Exists (fun o => Improved.title_key o = Raise e) l.
Proof.
  revert st. induction l as [|o l IH]; intros st; simpl; [done|].
  destruct (Improved.dedup_step st o) as [st'|e'] eqn:Hstep; run.
  - intros H. apply Exists_cons_tl. by eapply IH.
  - intros [= ->]. apply Exists_cons_hd. by eapply improved_dedup_step_Raise.
Qed.

Lemma improved_dedup_loop_Ok (l : list pydict) (st : list pydict * gset string) :
  Forall (fun o => is_Ok (Improved.title_key o) = true) l ->
  is_Ok (fold_loop Improved.dedup_step l st) = true.
Proof.
  intros H. revert st. induction H as [|o l Ho _ IH]; intros st; simpl; [done|].
  pose proof (improved_dedup_step_Ok st o Ho) as Hs.
  destruct (Improved.dedup_step st o) as [st'|]; [|done]. run. apply IH.
Qed.

Lemma improved_dedup_loop_fails (l : list pydict) (st : list pydict * gset string) :
  Exists (fun o => is_Ok (Improved.title_key o) = false) l ->
  is_Ok (fold_loop Improved.dedup_step l st) = false.
Proof.
  intros H. revert st. induction H as [o l Ho|o l _ IH]; intros st; simpl.
  - destruct st as [u s]. unfold Improved.dedup_step.
    by destruct (Improved.title_key o).
  - destruct (Improved.dedup_step st o) as [st'|]; run; [apply IH|done].
Qed.

(** The improved deduplicator returns exactly when every candidate's title
    is a string or is missing; the only exception it raises is
    [AttributeError] (from [.lower()] on a title that is not a string).  A
    candidate without a title is dropped by the improved deduplicator and
    makes the basic one raise [KeyError]. *)
Theorem dedup_raises_only_on_non_text_title (opps : list pydict) (o : pydict) :
  (is_Ok (Improved._deduplicate_opportunities opps) = true
   <-> Forall (fun c => c !! "title" = None
                        \/ exists t, c !! "title" = Some (PyStr t)) opps)
  /\ (forall e, Improved._deduplicate_opportunities opps = Raise e ->
        e = AttributeError)
  /\ Improved._deduplicate_opportunities [delete "title" o] = Ok []
  /\ Basic._deduplicate_opportunities [delete "title" o] = Raise KeyError.
Proof.
  unfold Improved._deduplicate_opportunities, Basic._deduplicate_opportunities.
  split; [|split; [|split]].
  - split.
    + intros Hok. apply Forall_forall. intros c Hc. apply improved_title_key_Ok.
      destruct (is_Ok (Improved.title_key c)) eqn:Hk; [done|].
      assert (Hf : is_Ok (fold_loop Improved.dedup_step opps ([], ∅)) = false).
      { apply improved_dedup_loop_fails, Exists_exists. by exists c. }
      destruct (fold_loop Improved.dedup_step opps ([], ∅)); done.
    + intros Hall.
      pose proof (improved_dedup_loop_Ok opps ([], ∅)) as Hok.
      destruct (fold_loop _ _ _); [done|]. apply Hok.
      eapply Forall_impl; [exact Hall|]. intros c. apply improved_title_key_Ok.
  - intros e Hr.
    destruct (fold_loop Improved.dedup_step opps ([], ∅)) as [st|e'] eqn:Hrun; [done|].
    injection Hr as <-. apply improved_dedup_loop_Raise in Hrun.
    apply Exists_exists in Hrun as (c & _ & Hc). by eapply improved_title_key_Raise.
  - cbn [fold_loop]. unfold Improved.dedup_step, Improved.title_key, dict_get.
    by rewrite lookup_delete_eq.
  - cbn [fold_loop]. unfold Basic.dedup_step, Basic.title_key, dict_item.
    by rewrite lookup_delete_eq.
Qed.

(** ** Customer evidence: range *)

Lemma py_min_l (a b : Q) : (py_min a b <= a)%Q.
Proof.
  unfold py_min. destruct (Qle_bool a b) eqn:H; [apply Qle_refl|].
  apply Qlt_le_weak, Qnot_le_lt. intros Hle. apply Qle_bool_iff in Hle. congruence.
Qed.

Lemma py_min_r (a b : Q) : (py_min a b <= b)%Q.
Proof.
  unfold py_min. destruct (Qle_bool a b) eqn:H; [by apply Qle_bool_iff|apply Qle_refl].
Qed.

Lemma py_min_glb (a b c : Q) : (c <= a)%Q -> (c <= b)%Q -> (c <= py_min a b)%Q.
Proof. intros. unfold py_min. by destruct (Qle_bool a b). Qed.

Lemma py_int_bounds (x : Q) (a b : Z) :
  (0 <= a)%Z -> (inject_Z a <= x)%Q -> (x <= inject_Z b)%Q ->
  (a <= py_int x <= b)%Z.
Proof.
  intros Ha Hlo Hhi. unfold py_int.
  assert (H0 : (0 <= x)%Q).
  { eapply Qle_trans; [|exact Hlo]. by rewrite Zle_Qle in Ha. }
  apply Qle_bool_iff in H0. rewrite H0. split.
  - rewrite <- (Qfloor_Z a). by apply Qfloor_resp_le.
  - rewrite <- (Qfloor_Z b). by apply Qfloor_resp_le.
Qed.

Lemma engagement_of_nonneg (signal : pyval) :
  nonneg_engagement signal = true ->
  exists q, engagement_of signal = Ok q /\ (0 <= q)%Q.
Proof.
  unfold nonneg_engagement, engagement_of.
  destruct signal as [| | | |l|d]; try done.
  destruct (d !! "engagement") as [[| | | | |e]|]; try done.
  - cbn [as_dict_method]. run.
    destruct (dict_get e "score" (PyInt 0)) as [|n| | | |]; try done.
    intros Hn. apply Z.leb_le in Hn. exists (inject_Z n). split; [done|].
    by rewrite Zle_Qle in Hn.
  - intros _. exists 0%Q. split; [done|apply Qle_refl].
Qed.

Lemma total_engagement_nonneg (signals : list pyval) (acc : Q) :
  Forall (fun s => nonneg_engagement s = true) signals -> (0 <= acc)%Q ->
  exists t, total_engagement acc signals = Ok t /\ (0 <= t)%Q.
Proof.
  intros H. revert acc. induction H as [|s l Hs _ IH]; intros acc Hacc; simpl.
  - by exists acc.
  - destruct (engagement_of_nonneg s Hs) as (q & -> & Hq). run.
    apply IH. lra.
Qed.

Lemma Qdiv_nonneg (t d : Q) : (0 <= t)%Q -> (0 < d)%Q -> (0 <= t / d)%Q.
Proof. intros Ht Hd. apply Qle_shift_div_l; [done|]. lra. Qed.

Lemma py_min_int (a b : Z) :
  (py_min (inject_Z a) (inject_Z b) == inject_Z (Z.min a b))%Q.
Proof.
  unfold py_min. destruct (Qle_bool (inject_Z a) (inject_Z b)) eqn:H.
  - apply Qle_bool_iff in H. rewrite <- Zle_Qle in H.
    by rewrite Z.min_l.
  - assert (Hlt : (b < a)%Z).
    { apply Z.lt_nge. intros Hle. rewrite Zle_Qle in Hle.
      apply Qle_bool_iff in Hle. congruence. }
    rewrite Z.min_r by lia. done.
Qed.

(** The bounds of the two customer-evidence scores, for later use. *)
Lemma evidence_bounds (opp : pydict) (signals : list pyval) :
  opp !! "source_signals" = Some (PyList signals) ->
  Forall (fun s => nonneg_engagement s = true) signals ->
  exists ce ce',
    Improved._score_customer_evidence opp = Ok ce
    /\ Basic._score_customer_evidence opp = Ok ce'
    /\ (signals = [] -> ce = 60%Z /\ ce' = 50%Z)
    /\ (signals <> [] ->
          (50 + Z.min 30 (6 * Z.of_nat (length signals)) <= ce <= 100)%Z
          /\ (Z.min 100 (50 + 5 * Z.of_nat (length signals)) <= ce' <= 100)%Z).
Proof.
  intros Hsig Hall.
  unfold Improved._score_customer_evidence, Basic._score_customer_evidence, dict_get.
  rewrite Hsig. destruct signals as [|s l] eqn:Hl.
  { exists 60%Z, 50%Z. by repeat split. }
  rewrite <- Hl in *. assert (Hne : signals <> []) by (by rewrite Hl).
  replace (truthy (PyList signals)) with true by (by rewrite Hl).
  cbn [negb py_len py_iter]. run.
  destruct (total_engagement_nonneg signals 0 Hall ltac:(apply Qle_refl))
    as (t & -> & Ht). run.
  set (n := length signals).
  assert (Hn : (0 < n)%nat) by (unfold n; rewrite Hl; simpl; lia).
  replace (0 <? n)%nat with true by (symmetry; by apply Nat.ltb_lt).
  assert (HnQ : (0 < inject_Z (Z.of_nat n))%Q).
  { rewrite <- (Zlt_Qlt 0). lia. }
  pose proof (Qdiv_nonneg t _ Ht HnQ) as Havg.
  set (avg := (t / inject_Z (Z.of_nat n))%Q) in *. clearbody avg.
  eexists _, _. split; [reflexivity|]. split; [reflexivity|].
  split; [done|]. intros _. split.
  - apply py_int_bounds; [lia| |apply py_min_l].
    apply py_min_glb.
    + change 100%Q with (inject_Z 100). rewrite <- Zle_Qle. lia.
    + change (py_min 30 (inject_Z (Z.of_nat n * 6)))
        with (py_min (inject_Z 30) (inject_Z (Z.of_nat n * 6))).
      rewrite inject_Z_plus, py_min_int.
      replace (Z.min 30 (Z.of_nat n * 6)) with (Z.min 30 (6 * Z.of_nat n)) by lia.
      assert (H20 : (0 <= py_min 20 (avg / 20))%Q).
      { apply py_min_glb; [lra|]. apply Qdiv_nonneg; [done|lra]. }
      change (inject_Z 50) with 50%Q. lra.
  - apply py_int_bounds; [lia| |apply py_min_l].
    apply py_min_glb.
    + change 100%Q with (inject_Z 100). rewrite <- Zle_Qle. lia.
    + assert (H10 : (0 <= avg / 10)%Q) by (apply Qdiv_nonneg; [done|lra]).
      eapply Qle_trans with (inject_Z (50 + 5 * Z.of_nat n)).
      { rewrite <- Zle_Qle. lia. }
      rewrite inject_Z_plus.
      replace (5 * Z.of_nat n)%Z with (Z.of_nat n * 5)%Z by lia.
      change (inject_Z 50) with 50%Q. lra.
Qed.

Lemma modest_is_nonneg (signal : pyval) :
  modest_engagement signal = true -> nonneg_engagement signal = true.
Proof.
  unfold modest_engagement, nonneg_engagement.
  destruct signal as [| | | | |d]; try done.
  destruct (d !! "engagement") as [[| | | | |e]|]; try done.
  destruct (dict_get e "score" (PyInt 0)); try done.
  by intros [? _]%andb_true_iff.
Qed.

Lemma modest_all_nonneg (signals : list pyval) :
  Forall (fun s => modest_engagement s = true) signals ->
  Forall (fun s => nonneg_engagement s = true) signals.
Proof. intros H. eapply Forall_impl; [exact H|]. apply modest_is_nonneg. Qed.

(** With [source_signals] a list of signals whose engagement scores are
    ints between 0 and [2^53] (or missing), so that their average fits a
    float, the customer-evidence score of the improved analyzer is 60 for
    the empty list and otherwise lies between [50 + min(30, 6n)] and 100,
    [n] being the number of signals; that of the basic analyzer is 50 for
    the empty list and otherwise lies between [min(100, 50 + 5n)] and
    100. *)
Theorem customer_evidence_range (opp : pydict) (signals : list pyval) :
  opp !! "source_signals" = Some (PyList signals) ->
  Forall (fun s => modest_engagement s = true) signals ->
  exists ce ce',
    Improved._score_customer_evidence opp = Ok ce
    /\ Basic._score_customer_evidence opp = Ok ce'
    /\ (signals = [] -> ce = 60%Z /\ ce' = 50%Z)
    /\ (signals <> [] ->
          (50 + Z.min 30 (6 * Z.of_nat (length signals)) <= ce <= 100)%Z
          /\ (Z.min 100 (50 + 5 * Z.of_nat (length signals)) <= ce' <= 100)%Z).
Proof.
  intros Hsig Hall. apply evidence_bounds; [done|]. by apply modest_all_nonneg.
Qed.

Lemma customer_evidence_range_witness :
  exists ce ce',
    Improved._score_customer_evidence dup_first = Ok ce
    /\ Basic._score_customer_evidence dup_first = Ok ce'.
Proof.
  destruct (customer_evidence_range dup_first (map PyDict (take 2 sample_batch)))
    as (ce & ce' & H1 & H2 & _).
  - reflexivity.
  - repeat constructor.
  - exists ce, ce'. split; assumption.
Defined.

(** ** Market size: values and exceptions *)

(** The market-size scorers return exactly when [market_size] is a string
    or is missing, and otherwise raise [AttributeError]; the improved one
    returns one of 55, 65, 75, 85, 95 and the basic one one of 60, 75, 85,
    95. *)
Theorem market_size_values_and_errors (opp : pydict) :
  (is_Ok (Improved._score_market_size opp) = true
   <-> opp !! "market_size" = None
       \/ exists t, opp !! "market_size" = Some (PyStr t))
  /\ (is_Ok (Basic._score_market_size opp)
      = is_Ok (Improved._score_market_size opp))
  /\ (forall e, Improved._score_market_size opp = Raise e -> e = AttributeError)
  /\ (forall e, Basic._score_market_size opp = Raise e -> e = AttributeError)
  /\ (forall ms, Improved._score_market_size opp = Ok ms ->
        ms ∈ [55; 65; 75; 85; 95]%Z)
  /\ (forall ms, Basic._score_market_size opp = Ok ms ->
        ms ∈ [60; 75; 85; 95]%Z).
Proof.
  unfold Improved._score_market_size, Basic._score_market_size, dict_get.
  destruct (opp !! "market_size") as [v|] eqn:Hv.
  - destruct v as [| | |t| |]; cbn [as_str_method]; run.
    all: try (split; [split; [done|intros [H|[? H]]; done]|];
              split; [done|]; split; [by intros e [= <-]|];
              split; [by intros e [= <-]|]; split; intros ms H; done).
    split.
    { split; [intros _; right; by eexists|intros _].
      repeat match goal with |- context [if ?b then _ else _] => destruct b end;
        done. }
    split.
    { repeat match goal with |- context [if ?b then _ else _] => destruct b end;
        done. }
    split.
    { intros e.
      repeat match goal with |- context [if ?b then _ else _] => destruct b end;
        done. }
    split.
    { intros e.
      repeat match goal with |- context [if ?b then _ else _] => destruct b end;
        done. }
    split; intros ms;
      repeat match goal with |- context [if ?b then _ else _] => destruct b end;
      intros [= <-]; repeat (first [apply list_elem_of_here|apply list_elem_of_further]).
  - cbn [as_str_method]. run. vm_compute lower.
    split; [split; [by left|done]|]. split; [done|].
    split; [done|]. split; [done|].
    split; intros ms [= <-];
      repeat (first [apply list_elem_of_here|apply list_elem_of_further]).
Qed.

(** ** Enrichment: evidence of a candidate *)




Section Batch.

Variable py_str : pyval -> string.
Variable re_search_array : string -> option string.
Variable strip_trailing_commas : string -> string.
Variable json_loads : string -> option pyval.
Variable client : nat -> string -> Improved.service_reply.
Variable now : nat -> string.


(** An exception inside the [try] block costs the batch all its
    candidates: a service error gives the empty list, and so does a reply
    whose JSON array holds one item that cannot be enriched (an item that
    is not an object, or whose indices are not numbers), whatever the other
    items are. *)
Theorem batch_failure_yields_no_candidates
    (n : nat) (signals : list pydict) (text : string) :
  Improved._format_signals_for_analysis py_str signals = Ok text ->
  (client n text = Improved.ServiceError ->
   Improved._analyze_batch_structured py_str re_search_array
     strip_trailing_commas json_loads client now n signals = Ok [])
  /\ (forall (reply : string) (items : list pyval),
        client n text = Improved.ServiceText reply ->
        Improved._extract_json_from_response re_search_array
          strip_trailing_commas json_loads (strip reply) = items ->
        Exists (fun v => is_Ok (Improved.enrich signals (now n) v) = false) items ->
        Improved._analyze_batch_structured py_str re_search_array
          strip_trailing_commas json_loads client now n signals = Ok []).
Proof.
  intros Hfmt. unfold Improved._analyze_batch_structured. rewrite Hfmt. run.
  unfold Improved.attempt. split.
  - by intros ->.
  - intros reply items -> Hitems Hbad. rewrite Hitems.
    destruct items as [|v items]; [by apply Exists_nil in Hbad|].
    destruct (for_each _ _) as [found|] eqn:Hrun; [|done].
    apply for_each_Forall2 in Hrun. exfalso.
    apply Exists_exists in Hbad as (x & Hx & Hfail).
    apply list_elem_of_lookup in Hx as [i Hi].
    destruct (Forall2_lookup_l _ _ _ _ _ Hrun Hi) as (y & _ & Hy).
    by rewrite Hy in Hfail.
Qed.

End Batch.


Lemma batch_failure_yields_no_candidates_witness :
  Improved._analyze_batch_structured (fun _ => "") (fun t => Some t) (fun t => t)
    (fun _ => Some (PyList mixed_items)) (fun _ _ => Improved.ServiceText "reply")
    (fun _ => "2026-01-06") 0 (take 2 sample_batch) = Ok [].
Proof.
  destruct (batch_failure_yields_no_candidates (fun _ => "") (fun t => Some t)
              (fun t => t) (fun _ => Some (PyList mixed_items))
              (fun _ _ => Improved.ServiceText "reply")
              (fun _ => "2026-01-06") 0 (take 2 sample_batch)
              (String.concat nl [String.concat nl [nl +:+ "Signal :"; "Source:  ()";
                 "Market: "; "Title: "; "Content: "; "Date: "; "URL: "; ""];
                 String.concat nl [nl +:+ "Signal :"; "Source:  ()";
                 "Market: "; "Title: "; "Content: "; "Date: "; "URL: "; ""]])
              ltac:(reflexivity)) as [_ Hbad].
  apply (Hbad "reply" mixed_items); [reflexivity|reflexivity|].
  apply Exists_cons_tl, Exists_cons_hd. reflexivity.
Defined.

(** ** Exceptions that escape [analyze_signals]: malformed signals *)

Section Malformed.

Variable py_str : pyval -> string.
Variable re_search_array : string -> option string.
Variable strip_trailing_commas : string -> string.
Variable json_loads : string -> option pyval.
Variable client : nat -> string -> Improved.service_reply.
Variable now : nat -> string.
Variable rnd : round_to_tenth.

Lemma format_signal_outcome (i : nat) (signal : pydict) :
  is_Ok (Improved.format_signal py_str i signal) = formattable signal
  /\ forall e, Improved.format_signal py_str i signal = Raise e ->
       e = KeyError \/ e = TypeError.
Proof.
  unfold Improved.format_signal, formattable, has_key, dict_item.
  destruct (signal !! "source"); run; [|split; [done|intros e [= <-]; by left]].
  destruct (signal !! "title"); run; [|split; [done|intros e [= <-]; by left]].
  destruct (signal !! "content") as [[]|]; run; cbn [Improved.excerpt]; run;
    split; try done; intros e [= <-]; auto.
Qed.

Lemma format_from_outcome (i : nat) (signals : list pydict) :
  is_Ok (Improved.format_from py_str i signals) = forallb formattable signals
  /\ forall e, Improved.format_from py_str i signals = Raise e ->
       e = KeyError \/ e = TypeError.
Proof.
  revert i. induction signals as [|s l IH]; intros i; simpl; [done|].
  destruct (format_signal_outcome i s) as [Hs He]. rewrite <- Hs.
  destruct (Improved.format_signal py_str i s) as [t|e]; run.
  - destruct (IH (S i)) as [Hl Hel]. rewrite <- Hl.
    destruct (Improved.format_from py_str (S i) l) as [ts|e]; run; [done|].
    split; [done|]. intros e' [= <-]. by apply Hel.
  - split; [done|]. intros e' [= <-]. by apply He.
Qed.

(** The prompt of the improved analyzer can be built exactly when every
    signal of the batch has a source, a title and a content that is a
    string or a list; otherwise formatting raises [KeyError] or
    [TypeError]. *)
Theorem prompt_formatting_outcome (signals : list pydict) :
  is_Ok (Improved._format_signals_for_analysis py_str signals)
  = forallb formattable signals
  /\ forall e, Improved._format_signals_for_analysis py_str signals = Raise e ->
       e = KeyError \/ e = TypeError.
Proof.
  unfold Improved._format_signals_for_analysis.
  destruct (format_from_outcome 1 signals) as [Hok He]. rewrite <- Hok.
  destruct (Improved.format_from py_str 1 signals) as [ts|e]; run; [done|].
  split; [done|]. intros e' [= <-]. by apply He.
Qed.

Lemma analyze_batches_malformed (n : nat) (bs : list (list pydict)) :
  forallb formattable (concat bs) = false ->
  is_Ok (Improved.analyze_batches py_str re_search_array strip_trailing_commas
           json_loads client now n bs) = false.
Proof.
  revert n. induction bs as [|b bs IH]; intros n; simpl; [done|].
  rewrite forallb_app. intros Hbad.
  unfold Improved._analyze_batch_structured.
  destruct (prompt_formatting_outcome b) as [Hok _].
  destruct (Improved._format_signals_for_analysis py_str b) as [text|]; run;
    [|done].
  simpl in Hok. rewrite <- Hok in Hbad. simpl in Hbad.
  specialize (IH (S n) Hbad).
  destruct (Improved.analyze_batches _ _ _ _ _ _ _ _); by run.
Qed.

(** Whatever the service replies, [analyze_signals] raises when one of the
    signals lacks a source, a title or a sliceable content: the prompt is
    formatted outside the [try] block. *)
Theorem analyze_signals_raises_on_malformed_signal
    (self : Improved.analyzer) (signals : list pydict) :
  forallb formattable signals = false ->
  is_Ok (Improved.analyze_signals py_str re_search_array strip_trailing_commas
           json_loads client now rnd self signals) = false.
Proof.
  intros Hbad. unfold Improved.analyze_signals.
  destruct signals as [|s l] eqn:Hl; [done|]. rewrite <- Hl in *.
  replace (length signals =? 0)%nat with false by (by rewrite Hl).
  destruct (batches_of signals Improved.batch_size) as [bs|] eqn:Hbs; run; [|done].
  apply batches_of_concat in Hbs. rewrite <- Hbs in Hbad.
  pose proof (analyze_batches_malformed 0 bs Hbad) as Hraise.
  destruct (Improved.analyze_batches _ _ _ _ _ _ _ _); [done|by run].
Qed.

End Malformed.

Lemma analyze_signals_raises_on_malformed_signal_witness :
  is_Ok (Improved.analyze_signals (fun _ => "") (fun t => Some t) (fun t => t)
           decode_stringly (fun _ _ => Improved.ServiceText stringly_reply)
           (fun _ => "2026-01-06") round_half_even
           {| Improved.api_key := "k"; Improved.opportunities := [] |}
           [sample_signal "s1" 40; delete "title" (sample_signal "s2" 10)])
  = false.
Proof.
  apply analyze_signals_raises_on_malformed_signal. reflexivity.
Defined.

(** ** The fallback scanner: one candidate per title line *)







(** ** The report's quick wins *)

Lemma dict_get_insert_eq (m : pydict) (k : string) (v d : pyval) :
  dict_get (<[k := v]> m) k d = v.
Proof. unfold dict_get. by rewrite lookup_insert_eq. Qed.

Lemma dict_get_insert_ne (m : pydict) (k j : string) (v d : pyval) :
  k <> j -> dict_get (<[k := v]> m) j d = dict_get m j d.
Proof. intros H. unfold dict_get. by rewrite lookup_insert_ne. Qed.

Lemma scores_dict_feasibility (v : pyval) (ce ms : Z) :
  dict_get (scores_dict v ce ms) "feasibility" (PyInt 50) = PyInt 75.
Proof.
  unfold dict_get, scores_dict.
  rewrite !lookup_insert_ne by done. by rewrite lookup_insert_eq.
Qed.

Lemma scored_not_quick_win (rnd : round_to_tenth)
    (evidence market : pydict -> result Z) (o o' : pydict) :
  score_one rnd evidence market o = Ok o' ->
  brief_generator._is_quick_win o' = Ok false
  /\ brief_generator._estimate_effort o' = Ok "2 quarters, 2-3 PMs".
Proof.
  intros H. apply score_one_Ok in H as (cf & ce & ms & _ & _ & _ & ->).
  unfold brief_generator._is_quick_win, brief_generator._estimate_effort.
  rewrite !dict_get_insert_eq. cbn [as_dict_method]. run.
  rewrite scores_dict_feasibility. split; [|reflexivity].
  rewrite dict_get_insert_ne by done. rewrite dict_get_insert_eq.
  unfold brief_generator.at_least. cbn [as_number]. run.
  by destruct (Qle_bool _ _).
Qed.

Lemma quick_wins_none (l : list pydict) :
  Forall (fun o => brief_generator._is_quick_win o = Ok false) l ->
  brief_generator.quick_wins l = Ok [].
Proof.
  induction 1 as [|o l Ho _ IH]; simpl; [done|]. rewrite Ho, IH. by run.
Qed.

(** No opportunity scored by the improved analyzer is a quick win for the
    report: the scorer stores a feasibility of 75 and [_is_quick_win] asks
    for 80, so the list of quick wins built by [generate_brief] is empty
    and the effort estimate of every opportunity is "2 quarters, 2-3
    PMs". *)
Theorem scored_opportunities_are_never_quick_wins
    (rnd : round_to_tenth) (opps all_signals : list pydict) :
  Forall (fun o => is_Ok (score_one rnd Improved._score_customer_evidence
                            Improved._score_market_size o) = true) opps ->
  exists out,
    Improved._score_and_rank rnd opps all_signals = Ok out
    /\ brief_generator.quick_wins out = Ok []
    /\ Forall (fun o => brief_generator._estimate_effort o
                        = Ok "2 quarters, 2-3 PMs") out.
Proof.
  intros Hok. destruct (for_each_total _ _ Hok) as [scored Hs].
  destruct (score_and_sort_Ok rnd _ _ Improved.sort_key opps scored
              improved_sort_key Hs) as (out & Hout & Hperm).
  exists out. split; [exact Hout|].
  assert (Hall : Forall (fun o => brief_generator._is_quick_win o = Ok false
                   /\ brief_generator._estimate_effort o = Ok "2 quarters, 2-3 PMs")
                   scored).
  { apply for_each_Forall2 in Hs. clear -Hs.
    induction Hs as [|o o' l l' Ho _ IH]; constructor; [|done].
    by eapply scored_not_quick_win. }
  apply (Permutation_Forall Hperm) in Hall. split.
  - apply quick_wins_none. eapply Forall_impl; [exact Hall|]. by intros o [? _].
  - eapply Forall_impl; [exact Hall|]. by intros o [_ ?].
Qed.

Lemma scored_opportunities_are_never_quick_wins_witness :
  exists out,
    Improved._score_and_rank round_half_even [dup_second; dup_first] sample_batch
      = Ok out
    /\ brief_generator.quick_wins out = Ok [].
Proof.
  destruct (scored_opportunities_are_never_quick_wins round_half_even
              [dup_second; dup_first] sample_batch) as (out & Hrun & Hq & _).
  - repeat constructor; vm_compute; reflexivity.
  - exists out. split; assumption.
Defined.

(** ** The range of the composite score *)

Lemma improved_market_bounds (opp : pydict) (ms : Z) :
  Improved._score_market_size opp = Ok ms -> (55 <= ms <= 95)%Z.
Proof.
  unfold Improved._score_market_size.
  destruct (as_str_method _) as [t|]; run; [|done].
  repeat match goal with |- context [if ?b then _ else _] => destruct b end;
    intros [= <-]; lia.
Qed.

(** For a candidate whose charter fit is a number in [0,100], whose market
    size is a string or missing and whose source signals have engagement
    scores between 0 and [2^53], the improved scorer stores a composite
    score between 43.2 and 92.3: customer evidence is at least 56, market
    size lies between 55 and 95, and feasibility and competitive advantage
    are fixed. *)
Theorem composite_score_range
    (rnd : round_to_tenth) (o : pydict) (cf : Q) (signals : list pyval) :
  as_number (dict_get o "charter_fit_score" (PyInt 50)) = Ok cf ->
  (0 <= cf <= 100)%Q ->
  o !! "source_signals" = Some (PyList signals) ->
  Forall (fun s => modest_engagement s = true) signals ->
  is_Ok (Improved._score_market_size o) = true ->
  exists (o' : pydict) (c : Q),
    score_one rnd Improved._score_customer_evidence Improved._score_market_size o
      = Ok o'
    /\ o' !! "composite_score" = Some (PyFloat c)
    /\ (43.2 <= c <= 92.3)%Q.
Proof.
  intros Hcf [Hc0 Hc1] Hsig Hall%modest_all_nonneg Hms.
  destruct (evidence_bounds o signals Hsig Hall) as (ce & ce' & Hce & _ & He & Hn).
  destruct (Improved._score_market_size o) as [ms|] eqn:Hmk; [|done].
  pose proof (improved_market_bounds o ms Hmk) as [Hm0 Hm1].
  assert (Hce_range : (56 <= ce <= 100)%Z).
  { destruct signals as [|s l].
    - destruct (He eq_refl) as [H60 _]. lia.
    - destruct Hn as [Hn _]; [done|]. simpl length in Hn. lia. }
  destruct Hce_range as [He0 He1].
  rewrite (score_one_run rnd _ _ o cf ce ms Hcf Hce Hmk).
  eexists _, _. split; [reflexivity|].
  split; [rewrite lookup_insert_ne by done; apply lookup_insert_eq|].
  set (x := weighted_sum config.SCORING_CRITERIA cf ce ms 75 70).
  assert (Hx : (43.25 <= x <= 92.25)%Q).
  { unfold x, weighted_sum. simpl.
    rewrite Zle_Qle in He0, He1, Hm0, Hm1.
    change (inject_Z 56) with 56%Q in *. change (inject_Z 100) with 100%Q in *.
    change (inject_Z 55) with 55%Q in *. change (inject_Z 95) with 95%Q in *.
    change (inject_Z 75) with 75%Q. change (inject_Z 70) with 70%Q.
    set (a := inject_Z ce) in *. set (b := inject_Z ms) in *. clearbody a b.
    split; lra. }
  pose proof (round1_near rnd x) as Hnear.
  apply Qabs_Qle_condition in Hnear as [Hn1 Hn2].
  clearbody x. split; lra.
Qed.

Lemma composite_score_range_witness :
  exists (o' : pydict) (c : Q),
    score_one round_half_even Improved._score_customer_evidence
      Improved._score_market_size dup_first = Ok o'
    /\ o' !! "composite_score" = Some (PyFloat c)
    /\ (43.2 <= c <= 92.3)%Q.
Proof.
  apply (composite_score_range round_half_even dup_first 70
           (map PyDict (take 2 sample_batch))).
  - reflexivity.
  - split; unfold Qle; simpl; lia.
  - reflexivity.
  - repeat constructor.
  - reflexivity.
Defined.

(** ** The basic parser: shape of the record and its title *)

Lemma field_of_section_fields (sec k : string) :
  Basic.field_of_section sec = Some k ->
  k <> "title" /\ k <> "source_signals" /\ k <> "charter_fit_score".
Proof.
  unfold Basic.field_of_section.
  repeat match goal with
  | |- context [if ?b then _ else _] => destruct b
  end; intros [= <-]; done.
Qed.

Lemma append_line_text (k line j : string) (o : pydict) :
  (exists s, o !! j = Some (PyStr s)) ->
  exists s, Basic.append_line k line o !! j = Some (PyStr s).
Proof.
  intros [s Hs]. unfold Basic.append_line. rewrite lookup_insert.
  destruct (decide (k = j)); by eexists.
Qed.

Lemma append_line_state (batch : list pydict) (sec k line : string) (o : pydict) :
  Basic.field_of_section sec = Some k ->
  parsing_state batch o -> parsing_state batch (Basic.append_line k line o).
Proof.
  intros Hk (Ht & Hp & Hm & Hs & Hn).
  apply field_of_section_fields in Hk as (K1 & K2 & K3).
  split; [|split; [|split; [|split]]].
  - unfold Basic.append_line. by rewrite lookup_insert_ne.
  - by apply append_line_text.
  - by apply append_line_text.
  - unfold Basic.append_line. by rewrite lookup_insert_ne.
  - unfold Basic.append_line. by rewrite lookup_insert_ne.
Qed.

Lemma score_insert_state (batch : list pydict) (n : Z) (o : pydict) :
  parsing_state batch o ->
  parsing_state batch (<["charter_fit_score" := PyInt n]> o).
Proof.
  intros (Ht & Hp & Hm & Hs & Hn).
  split; [|split; [|split; [|split]]]; rewrite ?lookup_insert_ne by done; try done.
  rewrite lookup_insert_eq. by eexists.
Qed.

Lemma parse_line_state (batch : list pydict) (o : pydict) (sec : option string)
    (raw : string) :
  parsing_state batch o -> parsing_state batch (Basic.parse_line (o, sec) raw).1.
Proof.
  intros Ho. unfold Basic.parse_line.
  repeat match goal with
  | |- context [if ?b then _ else _] => destruct b
  | |- context [match search_int ?s with _ => _ end] => destruct (search_int s)
  end; simpl; try done; try (by apply score_insert_state).
  all: destruct sec as [sec|]; [|done].
  all: destruct (Basic.field_of_section sec) as [k|] eqn:Hk; [|done].
  all: simpl; by eapply append_line_state.
Qed.

Lemma parse_fold_state (batch : list pydict) (lines : list string) (o : pydict)
    (sec : option string) :
  parsing_state batch o ->
  parsing_state batch (fold_left Basic.parse_line lines (o, sec)).1.
Proof.
  revert o sec. induction lines as [|raw lines IH]; intros o sec Ho; [done|].
  cbn [fold_left]. pose proof (parse_line_state batch o sec raw Ho) as Ho'.
  destruct (Basic.parse_line (o, sec) raw) as [o' sec']. by apply IH.
Qed.

Lemma blank_state (batch : list pydict) (now : string) :
  parsing_state batch (Basic.blank_opportunity batch now).
Proof.
  unfold Basic.blank_opportunity.
  split; [|split; [|split; [|split]]];
    rewrite ?lookup_insert_ne by done; rewrite ?lookup_insert_eq;
    first [done | by eexists].
Qed.




Lemma split_nonempty (sep : ascii) (s : string) : split sep s <> [].
Proof.
  induction s as [|a s IH]; simpl; [done|].
  destruct (Ascii.eqb a sep); [done|]. by destruct (split sep s).
Qed.



(** ** The basic pipeline *)

Lemma basic_dedup_sublist (l u : list pydict) (seen : gset string) :
  Forall (fun o => is_Ok (Basic.title_key o) = true) l ->
  exists k seen',
    fold_loop Basic.dedup_step l (u, seen) = Ok (u ++ k, seen')
    /\ k `sublist_of` l.
Proof.
  intros H. revert u seen. induction H as [|o l Ho _ IH]; intros u seen.
  - exists [], seen. by rewrite app_nil_r.
  - cbn [fold_loop].
    destruct (Basic.title_key o) as [key|] eqn:Hkey; [|done].
    assert (Hstep : Basic.dedup_step (u, seen) o
                    = if negb (bool_decide (key ∈ seen))
                      then Ok (u ++ [o], {[key]} ∪ seen) else Ok (u, seen)).
    { unfold Basic.dedup_step. by rewrite Hkey. }
    rewrite Hstep. clear Hstep.
    destruct (negb (bool_decide (key ∈ seen))); run.
    + destruct (IH (u ++ [o]) ({[key]} ∪ seen)) as (k & seen' & -> & Hsub).
      exists (o :: k), seen'. rewrite <- app_assoc. split; [done|].
      by apply sublist_skip.
    + destruct (IH u seen) as (k & seen' & -> & Hsub).
      exists k, seen'. split; [done|]. by apply sublist_cons.
Qed.

Lemma passed_candidate_scorable (rnd : round_to_tenth) (o : pydict) :
  passed_candidate o ->
  is_Ok (score_one rnd Basic._score_customer_evidence Basic._score_market_size o)
  = true.
Proof.
  intros ([t Ht] & [m Hm] & (batch & Hs & Hnn) & (n & Hn & _)).
  destruct (evidence_bounds o (map PyDict batch) Hs) as (_ & ce & _ & Hce & _).
  { by apply Forall_map. }
  assert (Hmk : exists ms, Basic._score_market_size o = Ok ms).
  { unfold Basic._score_market_size, dict_get. rewrite Hm.
    cbn [as_str_method]. run.
    repeat match goal with |- context [if ?b then _ else _] => destruct b end;
      by eexists. }
  destruct Hmk as [ms Hms].
  assert (Hcf : as_number (dict_get o "charter_fit_score" (PyInt 50))
                = Ok (inject_Z n)).
  { unfold dict_get. by rewrite Hn. }
  by rewrite (score_one_run rnd _ _ o _ ce ms Hcf Hce Hms).
Qed.

Lemma sublist_Forall {A : Type} (P : A -> Prop) (k l : list A) :
  k `sublist_of` l -> Forall P l -> Forall P k.
Proof.
  intros Hs Hl. apply Forall_forall. intros x Hx.
  rewrite Forall_forall in Hl. apply Hl. by eapply elem_of_sublist.
Qed.

Section BasicPipeline.

Variable py_str : pyval -> string.
Variable client : nat -> string -> string -> option string.
Variable now : nat -> string.
Variable rnd : round_to_tenth.

Lemma basic_format_from_Ok (i : nat) (batch : list pydict) :
  forallb basic_formattable batch = true ->
  is_Ok (BasicAnalyzer.format_from py_str i batch) = true.
Proof.
  revert i. induction batch as [|s l IH]; intros i; simpl; [done|].
  intros [Hs Hl]%andb_true_iff. specialize (IH (S i) Hl).
  unfold BasicAnalyzer.format_signal, dict_item.
  unfold basic_formattable, has_key in Hs.
  destruct (s !! "title"); [|done]. destruct (s !! "source"); [|done].
  destruct (s !! "market"); [|done].
  destruct (s !! "content") as [[]|]; try done;
    (destruct (s !! "url"); [|by rewrite ?andb_false_r in Hs]);
    (destruct (s !! "date"); [|by rewrite ?andb_false_r in Hs]);
    run; cbn [Improved.excerpt]; run;
    destruct (BasicAnalyzer.format_from py_str (S i) l); by run.
Qed.

(** One batch of well-formed signals gives at most one candidate, and a
    candidate it gives has passed the threshold. *)
Lemma basic_batch_outcome (n : nat) (batch : list pydict) :
  forallb basic_formattable batch = true ->
  Forall (fun s => nonneg_engagement (PyDict s) = true) batch ->
  exists found,
    BasicAnalyzer._analyze_batch py_str client now n batch = Ok found
    /\ (length found <= 1)%nat
    /\ Forall passed_candidate found.
Proof.
  intros Hfmt Hnn. unfold BasicAnalyzer._analyze_batch,
    BasicAnalyzer._format_signals_for_analysis.
  pose proof (basic_format_from_Ok 1 batch Hfmt) as Hok.
  destruct (BasicAnalyzer.format_from py_str 1 batch) as [ts|]; [|done]. run.
  assert (Hsrc : is_Ok (BasicAnalyzer.source_tag batch) = true).
  { destruct batch as [|s l]; [done|]. simpl in Hfmt |- *.
    apply andb_true_iff in Hfmt as [Hs _].
    unfold basic_formattable, has_key in Hs. unfold dict_item.
    destruct (s !! "title"); [|done]. by destruct (s !! "source"). }
  destruct (BasicAnalyzer.source_tag batch) as [src|]; [|done]. run.
  eexists. split; [reflexivity|].
  destruct (client n _ _) as [analysis|]; [|split; [simpl; lia|constructor]].
  unfold Basic._parse_analysis.
  destruct (_ <=? _)%Z eqn:Hth; [|split; [simpl; lia|constructor]].
  split; [simpl; lia|]. constructor; [|constructor].
  unfold Basic.parsed_opportunity in *.
  pose proof (parse_fold_state batch (split nl_char analysis)
                (Basic.blank_opportunity batch (now n)) None
                (blank_state batch (now n)))
    as (Ht & [p Hp] & [m Hm] & Hs & [k Hk]).
  set (o := (fold_left Basic.parse_line _ _).1) in *. clearbody o.
  assert (Hgen : forall j, j <> "title" -> Basic.generate_title o !! j = o !! j).
  { intros j Hj. unfold Basic.generate_title.
    destruct (_ && _); [by rewrite lookup_insert_ne|done]. }
  split; [|split; [|split]].
  - unfold Basic.generate_title.
    destruct (_ && _); [rewrite lookup_insert_eq|]; by eexists.
  - exists m. by rewrite Hgen.
  - exists batch. by rewrite Hgen.
  - exists k. rewrite Hgen by done. split; [done|].
    unfold Basic.score_of in Hth. rewrite Hgen, Hk in Hth by done.
    by apply Z.leb_le.
Qed.

Lemma basic_batches_outcome (n : nat) (bs : list (list pydict)) :
  Forall (fun b => forallb basic_formattable b = true
                   /\ Forall (fun s => nonneg_engagement (PyDict s) = true) b) bs ->
  exists opps,
    BasicAnalyzer.analyze_batches py_str client now n bs = Ok opps
    /\ (length opps <= length bs)%nat
    /\ Forall passed_candidate opps.
Proof.
  intros H. revert n. induction H as [|b bs [Hf Hn] _ IH]; intros n; simpl.
  - exists []. by repeat split.
  - destruct (basic_batch_outcome n b Hf Hn) as (found & -> & Hlen & Hall). run.
    destruct (IH (S n)) as (more & -> & Hlen' & Hall'). run.
    eexists. split; [reflexivity|]. rewrite length_app. split; [lia|].
    by apply Forall_app.
Qed.

(** On signals that have the six fields of the basic prompt and
    engagement scores between 0 and [2^53], and with a service whose
    replies, when it replies, are ASCII text with numbers of at most 15
    digits, the basic [analyze_signals] returns, whether a call of the
    service fails or not; it returns at most one opportunity per batch of
    five signals, and every opportunity it returns has a
    [charter_fit_score] of at least [CHARTER_FIT_THRESHOLD]. *)
Theorem basic_pipeline_bounded (signals : list pydict) :
  forallb basic_formattable signals = true ->
  Forall (fun s => modest_engagement (PyDict s) = true) signals ->
  (forall n content source analysis,
     client n content source = Some analysis -> plain_reply analysis = true) ->
  exists out,
    BasicAnalyzer.analyze_signals py_str client now rnd signals = Ok out
    /\ (length out <= ceil_div (length signals) 5)%nat
    /\ Forall (fun o => exists n, o !! "charter_fit_score" = Some (PyInt n)
                                  /\ (config.CHARTER_FIT_THRESHOLD <= n)%Z) out.
Proof.
  intros Hfmt Hmod _.
  assert (Hnn : Forall (fun s => nonneg_engagement (PyDict s) = true) signals).
  { eapply Forall_impl; [exact Hmod|]. intros s. apply modest_is_nonneg. }
  unfold BasicAnalyzer.analyze_signals, Basic._batch_signals,
    Basic.default_batch_size.
  rewrite batches_of_slices by lia. run.
  set (bs := map _ (seq 0 _)).
  assert (Hbs : Forall (fun b => forallb basic_formattable b = true
                   /\ Forall (fun s => nonneg_engagement (PyDict s) = true) b) bs).
  { apply Forall_map, Forall_forall. intros k _. simpl. unfold slice. split.
    - apply forallb_forall. intros s Hs%list_elem_of_In.
      rewrite forallb_forall in Hfmt. apply Hfmt. apply list_elem_of_In.
      apply elem_of_take in Hs as (i & Hi & _).
      rewrite lookup_drop in Hi. by eapply list_elem_of_lookup_2.
    - by apply Forall_take, Forall_drop. }
  destruct (basic_batches_outcome 0 bs Hbs) as (opps & -> & Hlen & Hall). run.
  assert (Hlen_bs : length bs = ceil_div (length signals) 5).
  { unfold bs. by rewrite length_map, length_seq. }
  unfold Basic._deduplicate_opportunities.
  destruct (basic_dedup_sublist opps [] ∅) as (kept & seen & -> & Hsub).
  { eapply Forall_impl; [exact Hall|]. intros o ([t Ht] & _).
    unfold Basic.title_key, dict_item. by rewrite Ht. }
  run. cbn [fst app].
  pose proof (sublist_Forall _ _ _ Hsub Hall) as Hkept.
  unfold Basic._score_opportunities.
  destruct (for_each_total (score_one rnd Basic._score_customer_evidence
              Basic._score_market_size) kept) as [scored Hs].
  { eapply Forall_impl; [exact Hkept|]. intros o Ho.
    by apply passed_candidate_scorable. }
  destruct (score_and_sort_Ok rnd _ _ Basic.sort_key kept scored
              basic_sort_key Hs) as (out & -> & Hperm).
  exists out. split; [done|].
  pose proof (scored_only_scores_added _ _ _ _ _ Hs) as Hframe.
  split.
  - rewrite <- (Permutation_length Hperm), <- (Forall2_length _ _ _ Hframe).
    pose proof (sublist_length _ _ Hsub). lia.
  - eapply Permutation_Forall; [exact Hperm|].
    clear -Hframe Hkept. induction Hframe as [|o o' l l' Ho _ IH].
    + constructor.
    + apply Forall_cons in Hkept as [Hp Hkept]. constructor; [|by apply IH].
      destruct Hp as (_ & _ & _ & (n & Hn & Hth)). exists n.
      destruct Ho as [Hf _]. by rewrite Hf.
Qed.

End BasicPipeline.

Lemma basic_pipeline_bounded_witness :
  exists out,
    BasicAnalyzer.analyze_signals (fun _ => "")
      (fun _ _ _ => Some low_fit_analysis) (fun _ => "2026-01-06")
      round_half_even sample_batch = Ok out
    /\ (length out <= 1)%nat.
Proof.
  destruct (basic_pipeline_bounded (fun _ => "")
              (fun _ _ _ => Some low_fit_analysis) (fun _ => "2026-01-06")
              round_half_even sample_batch) as (out & Hrun & Hlen & _).
  - reflexivity.
  - repeat constructor.
  - intros n content source analysis [= <-]. vm_compute. reflexivity.
  - exists out. split; [exact Hrun|exact Hlen].
Defined.

(** ** What the improved [analyze_signals] returns *)

Lemma improved_title_key_frame (o o' : pydict) :
  o' !! "title" = o !! "title" -> Improved.title_key o' = Improved.title_key o.
Proof. intros H. unfold Improved.title_key, dict_get. by rewrite H. Qed.

Lemma improved_dedup_Ok_keys (opps : list pydict) (kept : list pydict) :
  Improved._deduplicate_opportunities opps = Ok kept ->
  exists kk,
    Forall2 (fun o k => Improved.title_key o = Ok k) kept kk
    /\ NoDup kk /\ "" ∉ kk.
Proof.
  intros Hrun.
  assert (Hall : Forall (fun o => is_Ok (Improved.title_key o) = true) opps).
  { apply Forall_forall. intros c Hc.
    destruct (is_Ok (Improved.title_key c)) eqn:Hk; [done|].
    assert (Hf : is_Ok (fold_loop Improved.dedup_step opps ([], ∅)) = false).
    { apply improved_dedup_loop_fails, Exists_exists. by exists c. }
    unfold Improved._deduplicate_opportunities in Hrun.
    destruct (fold_loop Improved.dedup_step opps ([], ∅)); done. }
  destruct (for_each_total _ _ Hall) as [ks Hks].
  apply for_each_Forall2 in Hks.
  destruct (improved_dedup_kept opps ks Hks)
    as (kept' & seen & kk & Hfold & _ & Hkk & Hnd & Hin & Hseen).
  unfold Improved._deduplicate_opportunities in Hrun.
  rewrite Hfold in Hrun. injection Hrun as <-.
  exists kk. split; [done|]. split; [done|].
  intros Hempty. apply Hin, Hseen in Hempty as [? _]. done.
Qed.

Lemma keys_through_scoring (rnd : round_to_tenth)
    (evidence market : pydict -> result Z) (kept scored : list pydict)
    (kk : list string) :
  Forall2 (fun o k => Improved.title_key o = Ok k) kept kk ->
  for_each (score_one rnd evidence market) kept = Ok scored ->
  Forall2 (fun o k => Improved.title_key o = Ok k) scored kk.
Proof.
  intros Hkk Hs. apply for_each_Forall2 in Hs. revert kk Hkk.
  induction Hs as [|o o' l l' Ho _ IH]; intros kk Hkk.
  - inversion Hkk. constructor.
  - inversion Hkk as [|? k ? kk' Hk Hkk']; subst. constructor; [|by apply IH].
    rewrite (improved_title_key_frame o o'); [done|].
    by apply (score_one_frame rnd evidence market o o' "title").
Qed.

Lemma keys_of_permutation (l l' : list pydict) (kk : list string) :
  Forall2 (fun o k => Improved.title_key o = Ok k) l kk ->
  Permutation l l' ->
  exists kk', Forall2 (fun o k => Improved.title_key o = Ok k) l' kk'
              /\ Permutation kk kk'.
Proof.
  intros Hkk Hperm. revert kk Hkk.
  induction Hperm as [|x l l' _ IH|x y l|l l' l'' _ IH1 _ IH2]; intros kk Hkk.
  - inversion Hkk. exists []. split; constructor.
  - inversion Hkk as [|? k ? kk0 Hk Hkk0]; subst.
    destruct (IH kk0 Hkk0) as (kk' & H1 & H2).
    exists (k :: kk'). split; [by constructor|by constructor].
  - inversion Hkk as [|? k1 ? kk0 Hk1 Hkk0]; subst.
    inversion Hkk0 as [|? k2 ? kk1 Hk2 Hkk1]; subst.
    exists (k2 :: k1 :: kk1). split; [by repeat constructor|apply perm_swap].
  - destruct (IH1 kk Hkk) as (kk' & H1 & H2).
    destruct (IH2 kk' H1) as (kk'' & H3 & H4).
    exists kk''. split; [done|]. by etrans.
Qed.

Section Output.

Variable py_str : pyval -> string.
Variable re_search_array : string -> option string.
Variable strip_trailing_commas : string -> string.
Variable json_loads : string -> option pyval.
Variable client : nat -> string -> Improved.service_reply.
Variable now : nat -> string.
Variable rnd : round_to_tenth.

(** What the improved [analyze_signals] returns when it returns.  If the
    titles of the returned opportunities are ASCII text, their title keys
    are pairwise distinct and non-empty; if their charter fits are numbers
    in [0,100], they are in non-increasing order of composite score (a NaN
    charter fit, which the JSON decoder accepts, gives a NaN composite
    score that no sort puts in order).  Each opportunity carries its
    detailed scores; the analyzer keeps its key and, unless there was no
    signal, remembers the returned list.  With no signal the result is
    empty and the analyzer is left as it was, its earlier list included. *)
Theorem analyze_signals_output
    (self self' : Improved.analyzer) (signals out : list pydict) :
  Improved.analyze_signals py_str re_search_array strip_trailing_commas
    json_loads client now rnd self signals = Ok (self', out) ->
  (forallb ascii_titled out = true ->
   exists kk,
     for_each Improved.title_key out = Ok kk /\ NoDup kk /\ "" ∉ kk)
  /\ (Forall (fun o => score_in_range
                         (dict_get o "charter_fit_score" (PyInt 50)) = true) out ->
      StronglySorted (fun a b => (composite_of b <= composite_of a)%Q) out)
  /\ Forall (fun o => is_Some (o !! "detailed_scores")) out
  /\ Improved.api_key self' = Improved.api_key self
  /\ (signals <> [] -> Improved.opportunities self' = out)
  /\ (signals = [] -> self' = self /\ out = []).
Proof.
  unfold Improved.analyze_signals. destruct signals as [|s l] eqn:Hl.
  { intros [= <- <-]. split; [intros _; exists []; repeat split; [constructor|]|].
    - by intros ?%elem_of_nil.
    - repeat split; try constructor; done. }
  rewrite <- Hl. replace (length signals =? 0)%nat with false by (by rewrite Hl).
  destruct (batches_of _ _) as [bs|]; run; [|done].
  destruct (Improved.analyze_batches _ _ _ _ _ _ _ _) as [all|]; run; [|done].
  destruct (Improved._deduplicate_opportunities all) as [unique|] eqn:Hd; run;
    [|done].
  destruct (Improved._score_and_rank rnd unique signals) as [ranked|] eqn:Hr; run;
    [|done].
  intros [= <- <-]. cbn [Improved.api_key Improved.opportunities].
  destruct (improved_dedup_Ok_keys all unique Hd) as (kk & Hkk & Hnd & Hne).
  unfold Improved._score_and_rank in Hr.
  pose proof (score_and_sort_outcome rnd Improved._score_customer_evidence
    Improved._score_market_size Improved.sort_key unique improved_sort_key) as Hout.
  rewrite Hr in Hout. destruct Hout as (scored & Hs & Hperm).
  pose proof (keys_through_scoring _ _ _ _ _ _ Hkk Hs) as Hkk'.
  destruct (keys_of_permutation _ _ _ Hkk' Hperm) as (kk' & Hkk'' & Hpk).
  split; [|split; [|split; [|split; [done|split; [done|by rewrite Hl]]]]].
  - intros _. exists kk'. split; [by apply for_each_Forall2|]. split.
    + by rewrite <- Hpk.
    + by rewrite <- Hpk.
  - intros _.
    rewrite (keyed_by_composite _ _ _ _ _ _ improved_sort_key Hs) in Hr.
    injection Hr as <-.
    apply sorted_by_key; [|apply sort_desc_sorted].
    eapply Permutation_Forall; [apply sort_desc_perm|]. apply keys_are_composites.
  - eapply Permutation_Forall; [exact Hperm|].
    apply for_each_Forall2 in Hs. clear -Hs.
    induction Hs as [|o o' l l' Ho _ IH]; constructor; [|done].
    by apply score_one_scored in Ho as (q & _ & ?).
Qed.

End Output.

Lemma analyze_signals_output_witness :
  exists (self' : Improved.analyzer) (out : list pydict),
    Improved.analyze_signals (fun _ => "") (fun t => Some t) (fun t => t)
      (fun _ => Some duplicate_items) (fun _ _ => Improved.ServiceText "reply")
      (fun _ => "2026-01-06") round_half_even
      {| Improved.api_key := "k"; Improved.opportunities := [] |} sample_batch
    = Ok (self', out)
    /\ Forall (fun o => is_Some (o !! "detailed_scores")) out.
Proof.
  assert (Hok : is_Ok (Improved.analyze_signals (fun _ => "") (fun t => Some t)
      (fun t => t) (fun _ => Some duplicate_items)
      (fun _ _ => Improved.ServiceText "reply")
      (fun _ => "2026-01-06") round_half_even
      {| Improved.api_key := "k"; Improved.opportunities := [] |} sample_batch)
    = true) by (vm_compute; reflexivity).
  destruct (Improved.analyze_signals _ _ _ _ _ _ _ _ _) as [[self' out]|] eqn:Hrun;
    [|discriminate Hok].
  exists self', out. split; [reflexivity|].
  by destruct (analyze_signals_output _ _ _ _ _ _ _ _ _ _ _ Hrun)
    as (_ & _ & ? & _).
Defined.

(** ** Strategic memos *)

Lemma for_each_is_Ok {A B : Type} (f : A -> result B) (l : list A) :
  is_Ok (for_each f l) = forallb (fun x => is_Ok (f x)) l.
Proof.
  induction l as [|x l IH]; simpl; [done|].
  destruct (f x); run; simpl; [|done].
  rewrite <- IH. by destruct (for_each f l).
Qed.

Lemma upto_length {A : Type} (l : list A) (n : Z) :
  (0 <= n)%Z -> length (BasicAnalyzer.upto l n) = Nat.min (Z.to_nat n) (length l).
Proof.
  intros Hn. unfold BasicAnalyzer.upto.
  destruct (Z.ltb_spec n 0); [lia|]. by rewrite length_take.
Qed.

Section MemoFacts.

Variable py_str : pyval -> string.
Variable memo_client : nat -> string -> string -> string -> option string.

Lemma evidence_line_Ok (v : pyval) :
  is_Ok (BasicAnalyzer.evidence_line py_str v) = titled_item v.
Proof.
  unfold BasicAnalyzer.evidence_line, BasicAnalyzer.item_title.
  destruct v; try done. simpl. unfold dict_item, has_key.
  by destruct (_ !! "title").
Qed.

Lemma evidence_lines_Ok (items : list pyval) :
  is_Ok (for_each (BasicAnalyzer.evidence_line py_str) items)
  = forallb titled_item items.
Proof.
  rewrite for_each_is_Ok. induction items as [|v l IH]; simpl; [done|].
  by rewrite evidence_line_Ok, IH.
Qed.

(** The memo [_create_memo] returns once the prompt has been built. *)
Lemma create_memo_shape (n : nat) (o memo : pydict) :
  BasicAnalyzer._create_memo py_str memo_client n o = Ok memo ->
  exists t m e,
    memo = <["opportunity" := PyDict o]>
           (<["memo" := PyStr (match memo_client n t m e with
                               | Some memo_text => memo_text
                               | None => "Memo generation failed"
                               end)]> ∅).
Proof.
  unfold BasicAnalyzer._create_memo.
  destruct (BasicAnalyzer.py_prefix _ _) as [shown|]; run; [|done].
  destruct (py_iter shown) as [items|]; run; [|done].
  destruct (for_each _ items) as [lines|]; run; [|done].
  destruct (dict_item o "title") as [t|]; run; [|done].
  destruct (BasicAnalyzer.py_first _) as [first|]; run; [|done].
  destruct (as_dict_method first) as [first'|]; run; [|done].
  intros [= <-]. by eexists _, _, _.
Qed.

Lemma create_memo_ready (n : nat) (o : pydict) :
  is_Ok (BasicAnalyzer._create_memo py_str memo_client n o) = memo_ready o.
Proof.
  unfold BasicAnalyzer._create_memo, memo_ready, dict_get, dict_item, has_key.
  destruct (o !! "source_signals") as [[| | |s|[|v l]|]|] eqn:Hs;
    cbn [BasicAnalyzer.py_prefix]; run; rewrite ?andb_false_r; try done.
  - (* a string *)
    destruct s as [|c s]; cbn [prefix_of py_iter]; run.
    + cbn. by destruct (o !! "title").
    + done.
  - (* the empty list *)
    cbn. by destruct (o !! "title").
  - (* a non-empty list *)
    cbn [py_iter]; run.
    pose proof (evidence_lines_Ok (take 5 (v :: l))) as Hl.
    destruct (for_each _ (take 5 (v :: l))) as [lines|]; run.
    + rewrite <- Hl. rewrite andb_true_r.
      destruct (o !! "title"); run; [|done].
      cbn [BasicAnalyzer.py_first]. unfold list_item. cbn.
      simpl in Hl. symmetry in Hl. apply andb_true_iff in Hl as [Hv _].
      destruct v; try done.
    + rewrite <- Hl. by rewrite andb_false_r.
  - (* no source signals *)
    cbn [take py_iter for_each]; run. rewrite andb_true_r.
    by destruct (o !! "title").
Qed.

(** What [_create_memo] does with one opportunity.  It returns exactly
    when the opportunity has a title and its [source_signals] are absent or
    a non-empty list whose first five items are dicts with a title; the
    memo then holds the opportunity itself and a text, which is the
    placeholder when the service fails.  The default of [source_signals]
    covers a missing key only: an empty list is an [IndexError]. *)
Theorem create_memo_outcome (n : nat) (o : pydict) :
  is_Ok (BasicAnalyzer._create_memo py_str memo_client n o) = memo_ready o
  /\ (forall memo,
        BasicAnalyzer._create_memo py_str memo_client n o = Ok memo ->
        memo !! "opportunity" = Some (PyDict o)
        /\ (exists text, memo !! "memo" = Some (PyStr text))
        /\ ((forall t m e, memo_client n t m e = None) ->
            memo !! "memo" = Some (PyStr "Memo generation failed")))
  /\ (has_key o "title" = true ->
      o !! "source_signals" = Some (PyList []) ->
      BasicAnalyzer._create_memo py_str memo_client n o = Raise IndexError)
  /\ (forall t, o !! "title" = Some t -> o !! "source_signals" = None ->
      exists memo,
        BasicAnalyzer._create_memo py_str memo_client n o = Ok memo
        /\ memo !! "memo"
           = Some (PyStr (match memo_client n (py_str t)
                                  (py_str (PyStr "Multiple markets")) "" with
                          | Some memo_text => memo_text
                          | None => "Memo generation failed"
                          end))).
Proof.
  split; [apply create_memo_ready|]. split; [|split].
  - intros memo Hrun. apply create_memo_shape in Hrun as (t & m & e & ->).
    split; [by rewrite lookup_insert_eq|].
    rewrite lookup_insert_ne by done. rewrite lookup_insert_eq.
    split; [by eexists|]. intros Hfail. by rewrite Hfail.
  - unfold has_key. intros Ht Hs.
    unfold BasicAnalyzer._create_memo, dict_get, dict_item. rewrite Hs.
    destruct (o !! "title"); [|done]. reflexivity.
  - intros t Ht Hs.
    unfold BasicAnalyzer._create_memo, dict_get, dict_item. rewrite Hs, Ht.
    eexists. split; [reflexivity|].
    rewrite lookup_insert_ne by done. by rewrite lookup_insert_eq.
Qed.

Lemma memos_from_ready (n : nat) (opps : list pydict) :
  is_Ok (BasicAnalyzer.memos_from py_str memo_client n opps)
  = forallb memo_ready opps.
Proof.
  revert n. induction opps as [|o l IH]; intros n; simpl; [done|].
  rewrite <- create_memo_ready with (n := n), <- (IH (S n)).
  destruct (BasicAnalyzer._create_memo _ _ n o); run; [|done].
  by destruct (BasicAnalyzer.memos_from _ _ (S n) l).
Qed.

Lemma memos_from_paired (n : nat) (opps memos : list pydict) :
  BasicAnalyzer.memos_from py_str memo_client n opps = Ok memos ->
  Forall2 (fun o memo => memo !! "opportunity" = Some (PyDict o)) opps memos.
Proof.
  revert n memos. induction opps as [|o l IH]; intros n memos; simpl.
  - intros [= <-]. constructor.
  - destruct (BasicAnalyzer._create_memo _ _ n o) as [memo|] eqn:Hm; run; [|done].
    destruct (BasicAnalyzer.memos_from _ _ (S n) l) as [more|] eqn:Hl; run;
      [|done].
    intros [= <-]. constructor; [|by eapply IH].
    apply create_memo_shape in Hm as (t & m & e & ->).
    by rewrite lookup_insert_eq.
Qed.

(** [generate_strategic_memos] returns exactly when each of the first
    [top_n] opportunities can have a memo; it then returns one memo per
    such opportunity, in order, each holding its opportunity: for
    [top_n >= 0] that is [min(top_n, len)] memos.  A failing service does
    not change this; a single opportunity with an empty evidence list makes
    the whole call raise. *)
Theorem strategic_memos_outcome (opportunities : list pydict) (top_n : Z) :
  is_Ok (BasicAnalyzer.generate_strategic_memos py_str memo_client
           opportunities top_n)
  = forallb memo_ready (BasicAnalyzer.upto opportunities top_n)
  /\ forall memos,
       BasicAnalyzer.generate_strategic_memos py_str memo_client
         opportunities top_n = Ok memos ->
       Forall2 (fun o memo => memo !! "opportunity" = Some (PyDict o))
         (BasicAnalyzer.upto opportunities top_n) memos
       /\ ((0 <= top_n)%Z ->
           length memos = Nat.min (Z.to_nat top_n) (length opportunities)).
Proof.
  unfold BasicAnalyzer.generate_strategic_memos. split.
  - apply memos_from_ready.
  - intros memos Hrun. pose proof (memos_from_paired _ _ _ Hrun) as Hp.
    split; [done|]. intros Hn.
    by rewrite <- (Forall2_length _ _ _ Hp), upto_length.
Qed.

End MemoFacts.

(** ** Memos for what the basic pipeline returns *)

Lemma sourced_candidate_ready (o : pydict) : sourced_candidate o -> memo_ready o = true.
Proof.
  intros (Ht & batch & Hs & Hne & Hfmt). unfold memo_ready. rewrite Ht, Hs.
  destruct batch as [|s l]; [done|]. cbn [map andb].
  apply forallb_forall. intros v Hv%list_elem_of_In.
  apply elem_of_take in Hv as (i & Hi & _).
  apply list_elem_of_lookup_2 in Hi.
  change (PyDict s :: map PyDict l) with (map PyDict (s :: l)) in Hi.
  apply list_elem_of_In, in_map_iff in Hi as (d & <- & Hd).
  rewrite forallb_forall in Hfmt. specialize (Hfmt d Hd).
  unfold basic_formattable in Hfmt. simpl.
  destruct (has_key d "title"); [done|]. by rewrite ?andb_false_l in Hfmt.
Qed.

Lemma sourced_candidate_scored (o o' : pydict) :
  only_scores_added o o' -> sourced_candidate o -> sourced_candidate o'.
Proof.
  intros [Hframe _] (Ht & batch & Hs & Hrest). split.
  - unfold has_key in *. by rewrite Hframe.
  - exists batch. by rewrite Hframe.
Qed.

Section BasicMemos.

Variable py_str : pyval -> string.
Variable client : nat -> string -> string -> option string.
Variable memo_client : nat -> string -> string -> string -> option string.
Variable now : nat -> string.
Variable rnd : round_to_tenth.

(** A candidate of a batch carries that batch as its source signals. *)
Lemma basic_batch_sources (n : nat) (batch found : list pydict) :
  BasicAnalyzer._analyze_batch py_str client now n batch = Ok found ->
  Forall (fun o => o !! "source_signals" = Some (PyList (map PyDict batch)))
    found.
Proof.
  unfold BasicAnalyzer._analyze_batch.
  destruct (BasicAnalyzer._format_signals_for_analysis _ _) as [text|]; run;
    [|done].
  destruct (BasicAnalyzer.source_tag batch) as [src|]; run; [|done].
  intros [= <-]. destruct (client n _ _) as [analysis|]; [|constructor].
  unfold Basic._parse_analysis. destruct (_ <=? _)%Z; [|constructor].
  constructor; [|constructor]. unfold Basic.parsed_opportunity.
  pose proof (parse_fold_state batch (split nl_char analysis)
                (Basic.blank_opportunity batch (now n)) None
                (blank_state batch (now n)))
    as (_ & _ & _ & Hs & _).
  unfold Basic.generate_title.
  destruct (_ && _); [by rewrite lookup_insert_ne|done].
Qed.

Lemma basic_batches_sources (n : nat) (bs : list (list pydict))
    (opps : list pydict) :
  BasicAnalyzer.analyze_batches py_str client now n bs = Ok opps ->
  Forall (fun o => exists b, b ∈ bs
            /\ o !! "source_signals" = Some (PyList (map PyDict b))) opps.
Proof.
  revert n opps. induction bs as [|b bs IH]; intros n opps; simpl.
  - intros [= <-]. constructor.
  - destruct (BasicAnalyzer._analyze_batch _ _ _ n b) as [found|] eqn:Hb; run;
      [|done].
    destruct (BasicAnalyzer.analyze_batches _ _ _ (S n) bs) as [more|] eqn:Hm;
      run; [|done].
    intros [= <-]. apply Forall_app. split.
    + eapply Forall_impl; [exact (basic_batch_sources _ _ _ Hb)|].
      intros o Ho. exists b. split; [left|done].
    + eapply Forall_impl; [exact (IH _ _ Hm)|].
      intros o (b' & Hin & Ho). exists b'. split; [by right|done].
Qed.

(** The opportunities the basic [analyze_signals] returns on well-formed
    signals can all have a memo. *)
Lemma basic_pipeline_sourced (signals : list pydict) :
  forallb basic_formattable signals = true ->
  Forall (fun s => nonneg_engagement (PyDict s) = true) signals ->
  exists out,
    BasicAnalyzer.analyze_signals py_str client now rnd signals = Ok out
    /\ Forall sourced_candidate out.
Proof.
  intros Hfmt Hnn. unfold BasicAnalyzer.analyze_signals, Basic._batch_signals,
    Basic.default_batch_size.
  rewrite batches_of_slices by lia. run.
  set (bs := map _ (seq 0 _)).
  assert (Hin : forall b, b ∈ bs ->
            b <> [] /\ forallb basic_formattable b = true
            /\ Forall (fun s => nonneg_engagement (PyDict s) = true) b).
  { intros b Hb. unfold bs in Hb.
    apply list_elem_of_In, in_map_iff in Hb as (k & <- & Hk).
    apply in_seq in Hk as [_ Hk]. split; [|split].
    - intros Hnil. apply (f_equal length) in Hnil.
      rewrite slice_length in Hnil. change (length []) with 0%nat in Hnil.
      pose proof (ceil_div_tight (length signals) 5 k ltac:(lia) ltac:(lia)).
      lia.
    - unfold slice. apply forallb_forall. intros s Hs%list_elem_of_In.
      rewrite forallb_forall in Hfmt. apply Hfmt. apply list_elem_of_In.
      apply elem_of_take in Hs as (i & Hi & _).
      rewrite lookup_drop in Hi. by eapply list_elem_of_lookup_2.
    - unfold slice. by apply Forall_take, Forall_drop. }
  assert (Hbs : Forall (fun b => forallb basic_formattable b = true
                   /\ Forall (fun s => nonneg_engagement (PyDict s) = true) b) bs).
  { apply Forall_forall. intros b Hb. by destruct (Hin b Hb) as (_ & ? & ?). }
  destruct (basic_batches_outcome py_str client now 0 bs Hbs)
    as (opps & Hrun & _ & Hall).
  rewrite Hrun. run.
  assert (Hsrc : Forall sourced_candidate opps).
  { pose proof (basic_batches_sources _ _ _ Hrun) as Hs.
    apply Forall_forall. intros o Ho.
    rewrite Forall_forall in Hall, Hs.
    destruct (Hall o Ho) as ([t Ht] & _). destruct (Hs o Ho) as (b & Hb & Hob).
    split; [unfold has_key; by rewrite Ht|].
    exists b. destruct (Hin b Hb) as (? & ? & _). done. }
  unfold Basic._deduplicate_opportunities.
  destruct (basic_dedup_sublist opps [] ∅) as (kept & seen & -> & Hsub).
  { eapply Forall_impl; [exact Hall|]. intros o ([t Ht] & _).
    unfold Basic.title_key, dict_item. by rewrite Ht. }
  run. cbn [fst app].
  unfold Basic._score_opportunities.
  destruct (for_each_total (score_one rnd Basic._score_customer_evidence
              Basic._score_market_size) kept) as [scored Hs].
  { eapply Forall_impl; [exact (sublist_Forall _ _ _ Hsub Hall)|]. intros o Ho.
    by apply passed_candidate_scorable. }
  destruct (score_and_sort_Ok rnd _ _ Basic.sort_key kept scored
              basic_sort_key Hs) as (out & -> & Hperm).
  exists out. split; [done|].
  eapply Permutation_Forall; [exact Hperm|].
  pose proof (scored_only_scores_added _ _ _ _ _ Hs) as Hframe.
  pose proof (sublist_Forall _ _ _ Hsub Hsrc) as Hkept.
  clear -Hframe Hkept. induction Hframe as [|o o' l l' Ho _ IH]; [constructor|].
  apply Forall_cons in Hkept as [Hp Hkept].
  constructor; [by eapply sourced_candidate_scored|by apply IH].
Qed.

(** The two calls of the basic command line in a row: on signals that
    have the six fields of the prompt and engagement scores between 0 and
    [2^53], and with an analysis service whose replies are ASCII text with
    numbers of at most 15 digits, [analyze_signals] returns and
    [generate_strategic_memos] then returns too, whether a call of either
    service fails or not, with one memo for each of the first [top_n]
    opportunities, in ranking order. *)
Theorem basic_pipeline_memos (signals : list pydict) (top_n : Z) :
  forallb basic_formattable signals = true ->
  Forall (fun s => modest_engagement (PyDict s) = true) signals ->
  (forall n content source analysis,
     client n content source = Some analysis -> plain_reply analysis = true) ->
  exists out memos,
    BasicAnalyzer.analyze_signals py_str client now rnd signals = Ok out
    /\ BasicAnalyzer.generate_strategic_memos py_str memo_client out top_n
       = Ok memos
    /\ Forall2 (fun o memo => memo !! "opportunity" = Some (PyDict o))
         (BasicAnalyzer.upto out top_n) memos
    /\ ((0 <= top_n)%Z -> length memos = Nat.min (Z.to_nat top_n) (length out)).
Proof.
  intros Hfmt Hmod _.
  assert (Hnn : Forall (fun s => nonneg_engagement (PyDict s) = true) signals).
  { eapply Forall_impl; [exact Hmod|]. intros s. apply modest_is_nonneg. }
  destruct (basic_pipeline_sourced signals Hfmt Hnn) as (out & Hrun & Hsrc).
  exists out.
  assert (Hok : is_Ok (BasicAnalyzer.generate_strategic_memos py_str memo_client
                         out top_n) = true).
  { unfold BasicAnalyzer.generate_strategic_memos. rewrite memos_from_ready.
    apply forallb_forall. intros o Ho%list_elem_of_In.
    apply sourced_candidate_ready. rewrite Forall_forall in Hsrc. apply Hsrc.
    unfold BasicAnalyzer.upto in Ho. by apply elem_of_take in Ho as (i & ?%list_elem_of_lookup_2 & _). }
  destruct (BasicAnalyzer.generate_strategic_memos _ _ out top_n)
    as [memos|] eqn:Hm; [|done].
  exists memos. split; [done|]. split; [done|].
  pose proof (memos_from_paired _ _ _ _ _ Hm) as Hp. split; [done|].
  intros Hn. by rewrite <- (Forall2_length _ _ _ Hp), upto_length.
Qed.

End BasicMemos.

Lemma basic_pipeline_memos_witness :
  exists out memos,
    BasicAnalyzer.analyze_signals (fun _ => "")
      (fun _ _ _ => Some high_fit_analysis) (fun _ => "2026-01-06")
      round_half_even sample_batch = Ok out
    /\ BasicAnalyzer.generate_strategic_memos (fun _ => "")
         (fun _ _ _ _ => None) out 3 = Ok memos
    /\ length memos = Nat.min 3 (length out).
Proof.
  destruct (basic_pipeline_memos (fun _ => "")
              (fun _ _ _ => Some high_fit_analysis) (fun _ _ _ _ => None)
              (fun _ => "2026-01-06") round_half_even sample_batch 3)
    as (out & memos & Hrun & Hm & _ & Hlen).
  - reflexivity.
  - repeat constructor.
  - intros n content source analysis [= <-]. vm_compute. reflexivity.
  - exists out, memos. split; [exact Hrun|]. split; [exact Hm|].
    apply Hlen. lia.
Defined.

(** ** The ranker on candidates of the data model *)

Lemma score_in_range_number (v : pyval) :
  score_in_range v = true -> exists cf, as_number v = Ok cf.
Proof. destruct v; try done; by eexists. Qed.

Lemma improved_market_Ok (o : pydict) :
  match o !! "market_size" with
  | None | Some (PyStr _) => true
  | Some _ => false
  end = true ->
  is_Ok (Improved._score_market_size o) = true.
Proof.
  unfold Improved._score_market_size, dict_get.
  destruct (o !! "market_size") as [[]|]; try done; intros _;
    cbn [as_str_method]; run;
    repeat match goal with |- context [if ?b then _ else _] => destruct b end;
    done.
Qed.

Lemma improved_evidence_Ok (o : pydict) :
  match o !! "source_signals" with
  | None => true
  | Some (PyList l) => forallb modest_engagement l
  | Some _ => false
  end = true ->
  is_Ok (Improved._score_customer_evidence o) = true.
Proof.
  destruct (o !! "source_signals") as [[| | | |l|]|] eqn:Hs; try done.
  - intros Hl. destruct (evidence_bounds o l Hs) as (ce & ce' & -> & _); [|done].
    apply modest_all_nonneg, Forall_forall. intros v Hv%list_elem_of_In.
    rewrite forallb_forall in Hl. by apply Hl.
  - intros _. unfold Improved._score_customer_evidence, dict_get. by rewrite Hs.
Qed.

Lemma scorable_candidate_Ok (rnd : round_to_tenth) (o : pydict) :
  scorable_candidate o = true ->
  is_Ok (score_one rnd Improved._score_customer_evidence
           Improved._score_market_size o) = true.
Proof.
  unfold scorable_candidate.
  intros [[Hcf Hev]%andb_true_iff Hmk]%andb_true_iff.
  apply score_in_range_number in Hcf as [cf Hcf].
  apply improved_evidence_Ok in Hev. apply improved_market_Ok in Hmk.
  destruct (Improved._score_customer_evidence o) as [ce|] eqn:Hce; [|done].
  destruct (Improved._score_market_size o) as [ms|] eqn:Hms; [|done].
  by rewrite (score_one_run rnd _ _ o cf ce ms Hcf Hce Hms).
Qed.




(** On candidates inside the data model (charter fit a number in
    [0,100] or missing, source signals with engagement scores between 0
    and [2^53], market size a string or missing), the ranker of the
    improved analyzer returns the scored candidates by decreasing composite
    score, and candidates with equal composite scores stay in their input
    order. *)
Theorem ranking_descending_and_stable
    (rnd : round_to_tenth) (opps all_signals : list pydict) :
  forallb scorable_candidate opps = true ->
  exists scored out,
    for_each (score_one rnd Improved._score_customer_evidence
                Improved._score_market_size) opps = Ok scored
    /\ Improved._score_and_rank rnd opps all_signals = Ok out
    /\ StronglySorted (fun a b => (composite_of b <= composite_of a)%Q) out
    /\ (forall q : Q,
          List.filter (fun o => Qeq_bool (composite_of o) q) out
          = List.filter (fun o => Qeq_bool (composite_of o) q) scored).
Proof.
  intros Hin.
  assert (Hok : Forall (fun o => is_Ok (score_one rnd
            Improved._score_customer_evidence Improved._score_market_size o)
            = true) opps).
  { apply Forall_forall. intros o Ho%list_elem_of_In.
    rewrite forallb_forall in Hin. by apply scorable_candidate_Ok, Hin. }
  destruct (for_each_total _ _ Hok) as [scored Hs].
  exists scored. unfold Improved._score_and_rank.
  rewrite (keyed_by_composite _ _ _ _ _ _ improved_sort_key Hs).
  eexists. split; [exact Hs|]. split; [reflexivity|]. split.
  - apply sorted_by_key; [|apply sort_desc_sorted].
    eapply Permutation_Forall; [apply sort_desc_perm|]. apply keys_are_composites.
  - intros q. rewrite filter_by_key.
    + rewrite sort_desc_stable.
      rewrite <- (filter_by_key composite_of) by apply keys_are_composites.
      by rewrite map_map, map_id.
    + eapply Permutation_Forall; [apply sort_desc_perm|]. apply keys_are_composites.
Qed.

Lemma ranking_descending_and_stable_witness :
  exists out,
    Improved._score_and_rank round_half_even
      [sample_opportunity "Low fit idea" (PyInt 5) "large"; dup_first; dup_second]
      sample_batch = Ok out
    /\ StronglySorted (fun a b => (composite_of b <= composite_of a)%Q) out.
Proof.
  destruct (ranking_descending_and_stable round_half_even
              [sample_opportunity "Low fit idea" (PyInt 5) "large"; dup_first; dup_second]
              sample_batch) as (scored & out & _ & Hrun & Hsorted & _).
  - vm_compute. reflexivity.
  - exists out. split; assumption.
Defined.
